(** * Skill-to-Work Bridge: the learning-path endpoint of [python_server/flask_app.py]

    A shallow embedding of the Flask handler [generate_learning_path] and of
    the keyword heuristic [calculate_match_percentage], followed by the
    properties of the specification that concern them.

    Conventions.
    - A Python [str] is a Rocq [string] holding its UTF-8 encoding.  Substring
      search on well-formed UTF-8 agrees with substring search on code points.
    - [request.json] and the upstream reply are decoded JSON documents, type
      [json].  A decoded object is an association list read through the first
      binding of a key.
    - Python exceptions are values of type [exn]; code that may raise returns
      a [result].
    - Floats are IEEE binary64, computed with the Standard Library's
      [SpecFloat] at precision 53. *)

From Stdlib Require Import ZArith List String Ascii Bool Lia DecimalString.
From Stdlib Require Import Floats.SpecFloat.
Import ListNotations.

Set Warnings "-register-all".

Local Open Scope string_scope.
Local Open Scope Z_scope.

(** ** Exceptions and fallible computations *)

Module Py.

Inductive exn_class :=
| KeyError
| TypeError
| AttributeError
| ValueError
| OverflowError
| ZeroDivisionError
| OtherException (cls : string).

(** An instance of [Exception]: its class and what [str(e)] gives. *)
Record exn := Raise { exn_class_of : exn_class; exn_str : string }.

Inductive result (A : Type) :=
| Ok (a : A)
| Err (e : exn).

Arguments Ok {A} a.
Arguments Err {A} e.

Definition bind {A B} (c : result A) (k : A -> result B) : result B :=
  match c with
  | Ok a => k a
  | Err e => Err e
  end.

Fixpoint mapM {A B} (f : A -> result B) (l : list A) : result (list B) :=
  match l with
  | [] => Ok []
  | x :: rest =>
      bind (f x) (fun y => bind (mapM f rest) (fun ys => Ok (y :: ys)))
  end.

End Py.

Import Py.

Notation "x <- c ;; k" := (Py.bind c (fun x => k))
  (at level 61, c at next level, right associativity).

(** ** Decoded JSON values *)

Inductive json :=
| JNull
| JBool (b : bool)
| JInt (n : Z)
| JFloat (x : spec_float)
| JStr (s : string)
| JArr (items : list json)
| JObj (fields : list (string * json)).

(** [type(v).__name__] *)
Definition type_name (v : json) : string :=
  match v with
  | JNull => "NoneType"
  | JBool _ => "bool"
  | JInt _ => "int"
  | JFloat _ => "float"
  | JStr _ => "str"
  | JArr _ => "list"
  | JObj _ => "dict"
  end.

(** ** Strings *)

Definition is_ascii_char (c : ascii) : bool := (nat_of_ascii c <? 128)%nat.

Definition is_continuation (c : ascii) : bool :=
  ((128 <=? nat_of_ascii c) && (nat_of_ascii c <? 192))%nat.

Fixpoint is_ascii (s : string) : bool :=
  match s with
  | EmptyString => true
  | String c rest => is_ascii_char c && is_ascii rest
  end.

Definition lower_char (c : ascii) : ascii :=
  let n := nat_of_ascii c in
  if ((65 <=? n) && (n <=? 90))%nat then ascii_of_nat (n + 32) else c.

Fixpoint ascii_lower (s : string) : string :=
  match s with
  | EmptyString => EmptyString
  | String c rest => String (lower_char c) (ascii_lower rest)
  end.

(** Splits a UTF-8 string before every lead byte; first component: the
    continuation bytes met before the first lead byte. *)
Fixpoint chars_from (s : string) : string * list string :=
  match s with
  | EmptyString => (EmptyString, [])
  | String c rest =>
      let '(cont, cps) := chars_from rest in
      if is_continuation c then (String c cont, cps)
      else (EmptyString, String c cont :: cps)
  end.

Definition code_points (s : string) : list string := snd (chars_from s).

(** [k in us] on strings *)
Fixpoint contains (us k : string) : bool :=
  prefix k us ||
  match us with
  | EmptyString => false
  | String _ rest => contains rest k
  end.

Fixpoint join (sep : string) (l : list string) : string :=
  match l with
  | [] => EmptyString
  | [x] => x
  | x :: rest => x ++ sep ++ join sep rest
  end.

Definition decimal (n : Z) : string := NilZero.string_of_int (Z.to_int n).

Definition quoted (s : string) : string := "'" ++ s ++ "'".

(** ** Builtins on decoded values *)

Fixpoint lookup {A} (k : string) (l : list (string * A)) : option A :=
  match l with
  | [] => None
  | (k', v) :: rest => if String.eqb k k' then Some v else lookup k rest
  end.

Definition keys (fields : list (string * json)) : list string :=
  nodup string_dec (map fst fields).

(** [bool(v)] *)
Definition truthy (v : json) : bool :=
  match v with
  | JNull => false
  | JBool b => b
  | JInt n => negb (n =? 0)
  | JFloat (S754_zero _) => false
  | JFloat _ => true
  | JStr s => negb (String.eqb s "")
  | JArr l => match l with [] => false | _ => true end
  | JObj f => match f with [] => false | _ => true end
  end.

(** [len(v)] *)
Definition py_len (v : json) : result Z :=
  match v with
  | JStr s => Ok (Z.of_nat (List.length (code_points s)))
  | JArr l => Ok (Z.of_nat (List.length l))
  | JObj f => Ok (Z.of_nat (List.length (keys f)))
  | _ => Err (Raise TypeError
                ("object of type " ++ quoted (type_name v) ++ " has no len()"))
  end.

(** [v.get(k, default)] *)
Definition py_get (v : json) (k : string) (default : json) : result json :=
  match v with
  | JObj f => Ok (match lookup k f with Some x => x | None => default end)
  | _ => Err (Raise AttributeError
                (quoted (type_name v) ++ " object has no attribute 'get'"))
  end.

(** [v[k]] for a string key [k] *)
Definition py_getitem (v : json) (k : string) : result json :=
  match v with
  | JObj f =>
      match lookup k f with
      | Some x => Ok x
      | None => Err (Raise KeyError (quoted k))
      end
  | JStr _ =>
      Err (Raise TypeError "string indices must be integers, not 'str'")
  | JArr _ =>
      Err (Raise TypeError "list indices must be integers or slices, not str")
  | _ => Err (Raise TypeError
                (quoted (type_name v) ++ " object is not subscriptable"))
  end.

(** [for s in v]: the items the loop visits *)
Definition py_iter (v : json) : result (list json) :=
  match v with
  | JArr l => Ok l
  | JStr s => Ok (map JStr (code_points s))
  | JObj f => Ok (map JStr (keys f))
  | _ => Err (Raise TypeError
                (quoted (type_name v) ++ " object is not iterable"))
  end.

(** ** Binary64 arithmetic *)

Definition prec : Z := 53.
Definition emax : Z := 1024.

Definition float_of_int (n : Z) : spec_float :=
  binary_normalize prec emax n 0 false.

(** [a / b] on ints that a double holds exactly *)
Definition truediv (a b : Z) : result spec_float :=
  if b =? 0 then Err (Raise ZeroDivisionError "division by zero")
  else Ok (SFdiv prec emax (float_of_int a) (float_of_int b)).

(** [x * n] for a float [x] and an int [n] *)
Definition fmul_int (x : spec_float) (n : Z) : spec_float :=
  SFmul prec emax x (float_of_int n).

(** [int(x)]: truncation toward zero *)
Definition int_of_float (x : spec_float) : result Z :=
  match x with
  | S754_zero _ => Ok 0
  | S754_finite s m e =>
      let mag := match e with
                 | Zneg p => Z.shiftr (Zpos m) (Zpos p)
                 | _ => Z.shiftl (Zpos m) e
                 end in
      Ok (if s then - mag else mag)
  | S754_infinity _ =>
      Err (Raise OverflowError "cannot convert float infinity to integer")
  | S754_nan => Err (Raise ValueError "cannot convert float NaN to integer")
  end.

(** A rendering of values that are not strings, to run the model on examples.
    CPython's [repr] differs on floats and on strings that need escapes. *)
Fixpoint plain_repr (v : json) : string :=
  match v with
  | JNull => "None"
  | JBool b => if b then "True" else "False"
  | JInt n => decimal n
  | JFloat _ => "<float>"
  | JStr s => quoted s
  | JArr l => "[" ++ join ", " (map plain_repr l) ++ "]"
  | JObj f =>
      "{" ++ join ", " (map (fun kv => quoted (fst kv) ++ ": " ++ plain_repr (snd kv)) f)
          ++ "}"
  end.

(** ** The program *)

Record http_request := HttpRequest {
  http_url : string;
  http_headers : list (string * string);
  http_json : json
}.

(** What a request handler ends with: a JSON response and its status, or an
    exception that leaves the handler. *)
Inductive outcome :=
| Respond (status : Z) (body : json)
| Unhandled (e : exn).

(** A handler run: the log lines and upstream calls in order, then the
    outcome.  The continuation of [HttpPost] receives what
    [requests.post(...).json()] gave: a decoded reply or an exception. *)
Inductive action :=
| Done (o : outcome)
| LogInfo (line : string) (next : action)
| HttpPost (req : http_request) (k : result json -> action).

Inductive event :=
| Logged (line : string)
| Posted (req : http_request).

Fixpoint run (upstream : http_request -> result json) (a : action)
  : list event * outcome :=
  match a with
  | Done o => ([], o)
  | LogInfo line next =>
      let '(tr, o) := run upstream next in (Logged line :: tr, o)
  | HttpPost req k =>
      let '(tr, o) := run upstream (k (upstream req)) in (Posted req :: tr, o)
  end.

Definition is_post (ev : event) : bool :=
  match ev with
  | Posted _ => true
  | Logged _ => false
  end.

Definition upstream_calls (tr : list event) : list event := filter is_post tr.

Notation "'try!' x ':=' c 'in' k" :=
  (match c with
   | Ok x => k
   | Err exc => Done (Unhandled exc)
   end)
  (at level 10, x name, c at level 100, k at level 200).

Definition HF_API_URL : string :=
  "https://api-inference.huggingface.co/models/google/flan-t5-large".

Definition relevant_keywords : list (string * list string) :=
  [ ("Backend Developer", ["node.js"; "python"; "sql"; "api"; "database"; "git"]);
    ("Frontend Developer", ["javascript"; "react"; "html"; "css"; "figma"; "git"]);
    ("AI Engineer",
      ["python"; "machine learning"; "pytorch"; "tensorflow"; "data analysis"]);
    ("UI/UX Designer", ["figma"; "design"; "user research"; "prototyping"]) ].

Definition default_keywords : list string := ["git"; "api"].

Definition nl : string := String (ascii_of_nat 10) EmptyString.

(** ** Sample requests and upstream behaviours *)

Module Sample.

Definition skill (name : string) : json := JObj [("name", JStr name)].

Definition backend_keywords : list string :=
  ["node.js"; "python"; "sql"; "api"; "database"; "git"].

Definition designer_skills : list json := [skill "Figma"; skill "User Research"].

Definition designer : list (string * json) :=
  [ ("skills", JArr designer_skills);
    ("interest", JStr "design");
    ("target_role", JStr "UI/UX Designer") ].

Definition designer_again : list (string * json) :=
  [ ("target_role", JStr "UI/UX Designer");
    ("interest", JStr "illustration");
    ("skills", JArr designer_skills) ].

Definition no_skills : list (string * json) :=
  [ ("interest", JStr "AI"); ("target_role", JStr "AI Engineer") ].

Definition null_skills : list (string * json) :=
  [ ("skills", JNull);
    ("interest", JStr "");
    ("target_role", JStr "Backend Developer") ].

Definition nameless : json := JObj [("level", JStr "expert")].

Definition nameless_skill : list (string * json) :=
  [ ("skills", JArr [skill "Python"; nameless]);
    ("interest", JStr "AI");
    ("target_role", JStr "AI Engineer") ].

Definition replies_text (_ : http_request) : result json :=
  Ok (JArr [JObj [("generated_text", JStr "1. Learn prototyping")]]).

Definition replies_loading (_ : http_request) : result json :=
  Ok (JObj [("error", JStr "Model is currently loading")]).

Definition connection_refused : exn :=
  Raise (OtherException "ConnectionError") "Connection refused".

Definition refuses (_ : http_request) : result json := Err connection_refused.

(** [raise Exception()] *)
Definition raises_bare (_ : http_request) : result json :=
  Err (Raise (OtherException "Exception") "").

Definition replies_strings (_ : http_request) : result json :=
  Ok (JArr [JStr "Learn SQL"]).

Definition list_role : list (string * json) :=
  [ ("skills", JArr designer_skills);
    ("interest", JStr "design");
    ("target_role", JArr [JStr "UI/UX Designer"]) ].

Definition full_designer_skills : list json :=
  [skill "Figma design"; skill "User Research"; skill "Prototyping"].

Definition cook_skills : list json := [skill "Cooking"].

End Sample.

Section Server.

(** [str.lower] on strings with a code point outside ASCII. *)
Variable unicode_lower : string -> string.

(** [str(v)] for a decoded value that is not a string. *)
Variable py_repr : json -> string.

(** [os.getenv("HUGGINGFACE_API_KEY")] *)
Variable HF_API_KEY : option string.

(** [s.lower()] *)
Definition str_lower (s : string) : string :=
  if is_ascii s then ascii_lower s else unicode_lower s.

(** [v.lower()] *)
Definition py_lower (v : json) : result string :=
  match v with
  | JStr s => Ok (str_lower s)
  | _ => Err (Raise AttributeError
                (quoted (type_name v) ++ " object has no attribute 'lower'"))
  end.

(** [str(v)], also what an f-string field formats to *)
Definition py_str (v : json) : string :=
  match v with
  | JStr s => s
  | _ => py_repr v
  end.

(** [sep.join(items)] *)
Fixpoint str_items (i : Z) (items : list json) : result (list string) :=
  match items with
  | [] => Ok []
  | JStr s :: rest => ss <- str_items (i + 1) rest;; Ok (s :: ss)
  | v :: _ =>
      Err (Raise TypeError
             ("sequence item " ++ decimal i ++ ": expected str instance, "
                ++ type_name v ++ " found"))
  end.

Definition py_join (sep : string) (items : list json) : result string :=
  ss <- str_items 0 items;; Ok (join sep ss).

(** *** Match Estimator *)

(** [relevant_keywords.get(target_role, ["git", "api"])] *)
Definition keywords_for (target_role : json) : result (list string) :=
  match target_role with
  | JStr r =>
      Ok (match lookup r relevant_keywords with
          | Some ks => ks
          | None => default_keywords
          end)
  | JArr _ | JObj _ =>
      Err (Raise TypeError ("unhashable type: " ++ quoted (type_name target_role)))
  | _ => Ok default_keywords
  end.

(** [[s['name'].lower() for s in user_skills]] *)
Definition skill_names (user_skills : json) : result (list string) :=
  items <- py_iter user_skills;;
  mapM (fun s => name <- py_getitem s "name";; py_lower name) items.

(** [any(k in us for us in user_skill_names)] *)
Definition matched (user_skill_names : list string) (k : string) : bool :=
  existsb (fun us => contains us k) user_skill_names.

(** [[k for k in keywords if any(...)]] *)
Definition matching_keywords (keywords user_skill_names : list string)
  : list string :=
  filter (matched user_skill_names) keywords.

Definition len {A} (l : list A) : Z := Z.of_nat (List.length l).

(** [int((len(matches) / len(keywords)) * 100) if keywords else 0] *)
Definition percentage_of (matches keywords : list string) : result Z :=
  match keywords with
  | [] => Ok 0
  | _ => q <- truediv (len matches) (len keywords);; int_of_float (fmul_int q 100)
  end.

(** [min(max(percentage, 10), 95)] *)
Definition clamp (percentage : Z) : Z := Z.min (Z.max percentage 10) 95.

(** Lines 99 to 101 for a given keyword list. *)
Definition score (keywords user_skill_names : list string) : result Z :=
  let matches := matching_keywords keywords user_skill_names in
  percentage <- percentage_of matches keywords;;
  Ok (clamp percentage).

Definition calculate_match_percentage (user_skills target_role : json)
  : result Z :=
  keywords <- keywords_for target_role;;
  user_skill_names <- skill_names user_skills;;
  score keywords user_skill_names.

(** *** Request Handler *)

Definition query_huggingface (prompt : string) : http_request :=
  let bearer := match HF_API_KEY with Some key => key | None => "None" end in
  HttpRequest HF_API_URL
    [("Authorization", "Bearer " ++ bearer)]
    (JObj [ ("inputs", JStr prompt);
            ("parameters",
              JObj [ ("max_length", JInt 1000);
                     ("temperature",
                       JFloat (SFdiv prec emax (float_of_int 7) (float_of_int 10)));
                     ("top_p",
                       JFloat (SFdiv prec emax (float_of_int 9) (float_of_int 10))) ]) ]).

Definition build_prompt (skills interest target_role : json) : result string :=
  items <- py_iter skills;;
  names <- mapM (fun s => py_getitem s "name") items;;
  joined <- py_join ", " names;;
  Ok (nl ++
      "    User Current Skills: " ++ joined ++ nl ++
      "    User Interest: " ++ py_str interest ++ nl ++
      "    Target Job Role: " ++ py_str target_role ++ nl ++
      nl ++
      "    Suggest a complete step-by-step learning path to become a highly qualified "
        ++ py_str target_role ++ "." ++ nl ++
      "    Include:" ++ nl ++
      "    * Missing skills to learn" ++ nl ++
      "    * Technologies to learn" ++ nl ++
      "    * Tools and frameworks" ++ nl ++
      "    * Beginner to advanced roadmap" ++ nl ++
      "    * Correct order of learning" ++ nl ++
      nl ++
      "    Return the result as a structured list with clear section headers." ++ nl ++
      "    ").

(** The reply to [generated_text]: first element's field for a non-empty
    list, the reply as text otherwise. *)
Definition shape_reply (hf_response : json) : result json :=
  match hf_response with
  | JArr (first :: _) => py_get first "generated_text" (JStr "")
  | _ => Ok (JStr (py_str hf_response))
  end.

Definition success_body (generated_text : json) (match_percentage : Z)
    (target_role : json) : json :=
  JObj [ ("success", JBool true);
         ("learning_path", generated_text);
         ("match_percentage", JInt match_percentage);
         ("target_role", target_role) ].

Definition failure_body (description : string) : json :=
  JObj [ ("success", JBool false); ("error", JStr description) ].

Definition missing_input : outcome :=
  Respond 400 (JObj [ ("error", JStr "Missing required data") ]).

(** The body of the [try], from the result of [query_huggingface]. *)
Definition try_body (skills target_role : json) (reply : result json)
  : result json :=
  hf_response <- reply;;
  generated_text <- shape_reply hf_response;;
  match_percentage <- calculate_match_percentage skills target_role;;
  Ok (success_body generated_text match_percentage target_role).

(** The [try] with its [except Exception as e]. *)
Definition after_upstream (skills target_role : json) (reply : result json)
  : outcome :=
  match try_body skills target_role reply with
  | Ok body => Respond 200 body
  | Err e => Respond 500 (failure_body (exn_str e))
  end.

Definition log_line (target_role : json) (n : Z) : string :=
  "🚀 Generating learning path for " ++ py_str target_role ++ " with "
    ++ decimal n ++ " skills".

Definition generate_learning_path (data : json) : action :=
  try! skills := py_get data "skills" (JArr []) in
  try! interest := py_get data "interest" (JStr "") in
  try! target_role := py_get data "target_role" (JStr "") in
  try! n := py_len skills in
  LogInfo (log_line target_role n)
    (if negb (truthy skills) || negb (truthy interest) || negb (truthy target_role)
     then Done missing_input
     else
       try! prompt := build_prompt skills interest target_role in
       HttpPost (query_huggingface prompt)
         (fun reply => Done (after_upstream skills target_role reply))).

(** *** The specification's wording of the score, for comparison *)

(** Nearest integer to [a / b], ties to even, as Python's [round]. *)
Definition round_div (a b : Z) : Z :=
  let q := a / b in
  match 2 * (a mod b) ?= b with
  | Lt => q
  | Gt => q + 1
  | Eq => if Z.even q then q else q + 1
  end.

(** round(matches / total_keywords * 100), clamped to [10, 95] *)
Definition spec_rounded_score (keywords user_skill_names : list string) : Z :=
  clamp (round_div (100 * len (matching_keywords keywords user_skill_names))
                   (len keywords)).

(** *** Vocabulary of the statements *)

Definition is_substring (k us : string) : Prop :=
  exists pre post, us = pre ++ k ++ post.

(** A skill as the endpoint's contract has it: an object with a string
    [name]. *)
Definition skill_object (s : json) : Prop :=
  exists fields name, s = JObj fields /\ lookup "name" fields = Some (JStr name).

Definition lacks_name (s : json) : Prop :=
  exists fields, s = JObj fields /\ lookup "name" fields = None.

Definition field (k : string) (default : json) (fields : list (string * json))
  : json :=
  match lookup k fields with
  | Some x => x
  | None => default
  end.

Definition empty_or_absent (k : string) (fields : list (string * json)) : Prop :=
  match lookup k fields with
  | Some v => truthy v = false
  | None => True
  end.

(** The [match_percentage] of a 200 response. *)
Definition match_percentage_of (o : outcome) : option json :=
  match o with
  | Respond status (JObj body) =>
      if status =? 200 then lookup "match_percentage" body else None
  | _ => None
  end.

(** [percentage_of] on the two lengths. *)
Definition float_percentage (m n : Z) : result Z :=
  q <- truediv m n;; int_of_float (fmul_int q 100).

Definition floor_agrees (n m : nat) : bool :=
  match float_percentage (Z.of_nat m) (Z.of_nat n) with
  | Ok v => v =? 100 * Z.of_nat m / Z.of_nat n
  | Err _ => false
  end.

(** Whether [hash(v)] succeeds, which a dict lookup needs of its key. *)
Definition hashable (v : json) : bool :=
  match v with
  | JArr _ | JObj _ => false
  | _ => true
  end.

(** [isinstance(v, list) and len(v) > 0] *)
Definition is_nonempty_list (v : json) : bool :=
  match v with
  | JArr (_ :: _) => true
  | _ => false
  end.

(** Two skill objects whose ASCII names differ at most in letter case. *)
Definition same_name_up_to_case (s s' : json) : Prop :=
  exists fields fields' name name',
    s = JObj fields /\ lookup "name" fields = Some (JStr name) /\
    s' = JObj fields' /\ lookup "name" fields' = Some (JStr name') /\
    is_ascii name = true /\ is_ascii name' = true /\
    ascii_lower name = ascii_lower name'.

(** A request as the endpoint's contract has it: a non-empty list of skill
    objects, a non-empty interest and a non-empty, hashable target role. *)
Definition well_formed_request (fields : list (string * json)) : Prop :=
  exists items,
    field "skills" (JArr []) fields = JArr items /\ items <> [] /\
    Forall skill_object items /\
    truthy (field "interest" (JStr "") fields) = true /\
    truthy (field "target_role" (JStr "") fields) = true /\
    hashable (field "target_role" (JStr "") fields) = true.

(** ** Properties *)

(** *** Fallible computations *)

Lemma mapM_ok_in {A B} (f : A -> result B) (l : list A) (ys : list B) :
  mapM f l = Ok ys ->
  forall y, In y ys <-> exists x, In x l /\ f x = Ok y.
Proof.
  revert ys; induction l as [|x l IH]; intros ys H y; simpl in H.
  - inversion H; subst; simpl; split; [tauto | intros (x & [] & _)].
  - destruct (f x) as [b|e] eqn:Hx; simpl in H; [|discriminate].
    destruct (mapM f l) as [bs|e] eqn:Hl; simpl in H; [|discriminate].
    inversion H; subst; clear H. specialize (IH bs eq_refl y).
    simpl; split.
    + intros [<- | Hy]; [exists x; auto|].
      apply IH in Hy as (x' & Hin & Hfx); exists x'; auto.
    + intros (x' & [<- | Hin] & Hfx).
      * left; congruence.
      * right; apply IH; exists x'; auto.
Qed.

Lemma mapM_ok_length {A B} (f : A -> result B) (l : list A) (ys : list B) :
  mapM f l = Ok ys -> List.length ys = List.length l.
Proof.
  revert ys; induction l as [|x l IH]; intros ys H; simpl in H.
  - inversion H; reflexivity.
  - destruct (f x); simpl in H; [|discriminate].
    destruct (mapM f l); simpl in H; [|discriminate].
    inversion H; subst; simpl; f_equal; auto.
Qed.

Lemma mapM_err_in {A B} (f : A -> result B) (l : list A) (e : exn) :
  mapM f l = Err e -> exists x, In x l /\ f x = Err e.
Proof.
  induction l as [|x l IH]; simpl; [discriminate|].
  destruct (f x) as [b|e'] eqn:Hx; simpl.
  - destruct (mapM f l) as [bs|e'']; simpl; [discriminate|].
    intros H; inversion H; subst.
    destruct (IH eq_refl) as (x' & Hin & Hfx); exists x'; auto.
  - intros H; inversion H; subst; exists x; auto.
Qed.

Lemma mapM_total {A B} (f : A -> result B) (l : list A) :
  Forall (fun x => exists y, f x = Ok y) l -> exists ys, mapM f l = Ok ys.
Proof.
  induction 1 as [|x l (y & Hy) _ (ys & Hys)]; simpl.
  - eexists; reflexivity.
  - rewrite Hy, Hys; simpl; eexists; reflexivity.
Qed.

Lemma mapM_fails {A B} (f : A -> result B) (l : list A) (x : A) :
  In x l -> (forall y, f x <> Ok y) -> exists e, mapM f l = Err e.
Proof.
  induction l as [|x' l IH]; simpl; [tauto|].
  intros [-> | Hin] Hx.
  - destruct (f x) as [y|e]; [destruct (Hx y eq_refl)|].
    exists e; reflexivity.
  - destruct (f x') as [y|e]; simpl; [|exists e; reflexivity].
    destruct (IH Hin Hx) as (e & ->); exists e; reflexivity.
Qed.

(** *** Substring search *)

Lemma prefix_spec (k us : string) :
  prefix k us = true <-> exists post, us = k ++ post.
Proof.
  revert us; induction k as [|c k IH]; intros us.
  - split; [intros _; exists us; reflexivity | destruct us; reflexivity].
  - destruct us as [|c' us]; simpl.
    + split; [discriminate | intros (post & H); discriminate].
    + destruct (ascii_dec c c') as [<- | Hne].
      * rewrite IH; split; intros (post & H); exists post.
        -- f_equal; exact H.
        -- inversion H; reflexivity.
      * split; [discriminate | intros (post & H); congruence].
Qed.

Lemma contains_spec (us k : string) :
  contains us k = true <-> is_substring k us.
Proof.
  unfold is_substring; induction us as [|c us IH]; cbn [contains].
  - rewrite orb_false_r, prefix_spec; split.
    + intros (post & H); exists EmptyString, post; exact H.
    + intros ([|c pre] & post & H); [exists post; exact H | discriminate].
  - rewrite orb_true_iff, prefix_spec, IH; split.
    + intros [(post & H) | (pre & post & H)].
      * exists EmptyString, post; exact H.
      * exists (String c pre), post; simpl; f_equal; exact H.
    + intros ([|c' pre] & post & H).
      * left; exists post; exact H.
      * right; inversion H; subst; exists pre, post; reflexivity.
Qed.

Lemma matched_spec (names : list string) (k : string) :
  matched names k = true <-> exists us, In us names /\ is_substring k us.
Proof.
  unfold matched; rewrite existsb_exists.
  split; intros (us & Hin & H); exists us; split; auto; apply contains_spec; auto.
Qed.

(** *** The score *)

Lemma floor_table :
  forallb (fun n => forallb (floor_agrees (S n)) (seq 0 (S (S n)))) (seq 0 49)
  = true.
Proof. vm_compute; reflexivity. Qed.

(** Up to 49 keywords the double-precision product truncates to the exact
    floor of [100 * m / n]. *)
Lemma float_percentage_floor (m n : nat) :
  (1 <= n <= 49)%nat -> (m <= n)%nat ->
  float_percentage (Z.of_nat m) (Z.of_nat n)
  = Ok (100 * Z.of_nat m / Z.of_nat n).
Proof.
  intros Hn Hm.
  pose proof floor_table as T.
  rewrite forallb_forall in T.
  specialize (T (n - 1)%nat).
  rewrite in_seq in T.
  replace (S (n - 1)) with n in T by lia.
  assert (In1 : (0 <= n - 1 < 0 + 49)%nat) by lia.
  specialize (T In1).
  rewrite forallb_forall in T.
  specialize (T m).
  rewrite in_seq in T.
  assert (In2 : (0 <= m < 0 + S n)%nat) by lia.
  specialize (T In2).
  unfold floor_agrees in T.
  destruct (float_percentage (Z.of_nat m) (Z.of_nat n)) as [v|e];
    [|discriminate].
  apply Z.eqb_eq in T; subst; reflexivity.
Qed.

(** With 50 keywords the product can fall below the floor. *)
Lemma float_percentage_29_50 : float_percentage 29 50 = Ok 57 /\ 100 * 29 / 50 = 58.
Proof. split; vm_compute; reflexivity. Qed.

Lemma percentage_of_nonempty (matches keywords : list string) :
  keywords <> [] ->
  percentage_of matches keywords = float_percentage (len matches) (len keywords).
Proof. destruct keywords; [congruence | reflexivity]. Qed.

Lemma matching_keywords_length (keywords names : list string) :
  (List.length (matching_keywords keywords names) <= List.length keywords)%nat.
Proof. apply filter_length_le. Qed.

Lemma score_floor (keywords names : list string) :
  keywords <> [] -> (List.length keywords <= 49)%nat ->
  score keywords names
  = Ok (clamp (100 * len (matching_keywords keywords names) / len keywords)).
Proof.
  intros Hne Hlen.
  unfold score.
  rewrite percentage_of_nonempty by assumption.
  unfold len; rewrite float_percentage_floor; [reflexivity| |].
  - destruct keywords; [congruence | simpl in *; lia].
  - apply matching_keywords_length.
Qed.

Lemma clamp_band (p : Z) : 10 <= clamp p <= 95.
Proof. unfold clamp; lia. Qed.

Lemma lookup_absent {A} (k : string) (l : list (string * A)) :
  ~ In k (map fst l) -> lookup k l = None.
Proof.
  induction l as [|[k' v] l IH]; simpl; [reflexivity|].
  intros H. destruct (String.eqb_spec k k') as [-> | _].
  - destruct H; auto.
  - apply IH; tauto.
Qed.

Lemma keywords_for_str (role : string) :
  exists ks, keywords_for (JStr role) = Ok ks
             /\ ks <> [] /\ (List.length ks <= 6)%nat.
Proof.
  unfold keywords_for, relevant_keywords, default_keywords; simpl.
  repeat match goal with
         | |- context [String.eqb role ?k] => destruct (String.eqb role k)
         end;
    eexists; (split; [reflexivity | split; [discriminate | simpl; lia]]).
Qed.

Lemma skill_names_total (items : list json) :
  Forall skill_object items -> exists names, skill_names (JArr items) = Ok names.
Proof.
  intros H; unfold skill_names; simpl.
  apply mapM_total.
  eapply Forall_impl; [|exact H].
  intros s (fields & name & -> & Hname); simpl.
  rewrite Hname; simpl; eexists; reflexivity.
Qed.

(** Whatever the arguments, a returned percentage is in the band. *)
Lemma calculate_in_band (user_skills target_role : json) (v : Z) :
  calculate_match_percentage user_skills target_role = Ok v -> 10 <= v <= 95.
Proof.
  unfold calculate_match_percentage, score.
  destruct (keywords_for target_role) as [ks|]; simpl; [|discriminate].
  destruct (skill_names user_skills) as [names|]; simpl; [|discriminate].
  destruct (percentage_of _ ks) as [p|]; simpl; [|discriminate].
  intros H; inversion H; apply clamp_band.
Qed.

(** C1 (as amended): for every keyword list of 1 to 49 keywords and every list
    of lower-cased skill names, the score is the integer part of
    matches * 100 / total_keywords (truncated, not rounded to nearest),
    clamped to the range 10..95. *)
Theorem score_truncates_then_clamps (keywords user_skill_names : list string) :
  keywords <> [] ->
  (List.length keywords <= 49)%nat ->
  let matches := len (matching_keywords keywords user_skill_names) in
  score keywords user_skill_names = Ok (Z.min (Z.max (100 * matches / len keywords) 10) 95).
Proof. intros Hne Hlen; apply score_floor; assumption. Qed.

(** C2: for every list of skills (objects with a string name) and every target
    role string, recognised or not, the Match Estimator returns a percentage,
    and it lies in 10..95 inclusive. *)
Theorem match_percentage_in_band (items : list json) (role : string) :
  Forall skill_object items ->
  exists v, calculate_match_percentage (JArr items) (JStr role) = Ok v
            /\ 10 <= v <= 95.
Proof.
  intros Hwf.
  destruct (keywords_for_str role) as (ks & Hks & Hne & Hlen).
  destruct (skill_names_total items Hwf) as (names & Hnames).
  unfold calculate_match_percentage.
  rewrite Hks, Hnames; simpl.
  rewrite score_floor by (auto; lia).
  eexists; split; [reflexivity | apply clamp_band].
Qed.

(** C5: a keyword is among the matches exactly when it is in the keyword list
    and is a substring of the lower-cased name of at least one user skill. *)
Theorem keyword_matched_iff_substring
    (items : list json) (user_skill_names keywords : list string) (k : string) :
  skill_names (JArr items) = Ok user_skill_names ->
  In k (matching_keywords keywords user_skill_names) <->
  In k keywords /\
  exists s name, In s items /\ py_getitem s "name" = Ok (JStr name)
                 /\ is_substring k (str_lower name).
Proof.
  intros Hnames. unfold skill_names in Hnames; simpl in Hnames.
  pose proof (mapM_ok_in _ _ _ Hnames) as Hin.
  unfold matching_keywords; rewrite filter_In, matched_spec.
  split; intros [Hk Hex]; split; auto.
  - destruct Hex as (us & Hus & Hsub).
    apply Hin in Hus as (s & Hs & Hf).
    destruct (py_getitem s "name") as [v|] eqn:Hg; simpl in Hf; [|discriminate].
    destruct v; simpl in Hf; try discriminate.
    inversion Hf; subst. eauto 6.
  - destruct Hex as (s & name & Hs & Hg & Hsub).
    exists (str_lower name); split; auto.
    apply Hin. exists s; split; auto. rewrite Hg; reflexivity.
Qed.

(** C6: a target role that is not one of the four names of the table gets the
    fallback list git, api; with some lower-cased skill name containing git
    and none containing api, the match percentage is 50. *)
Theorem unrecognized_role_uses_fallback (role : string) :
  ~ In role (map fst relevant_keywords) ->
  keywords_for (JStr role) = Ok ["git"; "api"] /\
  forall user_skills names,
    skill_names user_skills = Ok names ->
    (exists us, In us names /\ is_substring "git" us) ->
    (forall us, In us names -> ~ is_substring "api" us) ->
    calculate_match_percentage user_skills (JStr role) = Ok 50.
Proof.
  intros Hrole.
  assert (Hks : keywords_for (JStr role) = Ok ["git"; "api"]).
  { unfold keywords_for. rewrite (lookup_absent _ _ Hrole). reflexivity. }
  split; [exact Hks|].
  intros user_skills names Hnames Hgit Hapi.
  unfold calculate_match_percentage. rewrite Hks, Hnames; simpl.
  unfold score, matching_keywords; simpl.
  apply matched_spec in Hgit. rewrite Hgit.
  destruct (matched names "api") eqn:Ha.
  - apply matched_spec in Ha as (us & Hin & Hsub). destruct (Hapi us Hin Hsub).
  - vm_compute; reflexivity.
Qed.

(** C7: skills Figma and User Research against the role UI/UX Designer match
    figma and user research, 2 of 4 keywords, and the estimator returns 50. *)
Theorem figma_user_research_scores_50 :
  let skills := JArr [ JObj [("name", JStr "Figma")];
                       JObj [("name", JStr "User Research")] ] in
  keywords_for (JStr "UI/UX Designer")
    = Ok ["figma"; "design"; "user research"; "prototyping"] /\
  (exists names, skill_names skills = Ok names /\
     matching_keywords ["figma"; "design"; "user research"; "prototyping"] names
       = ["figma"; "user research"]) /\
  calculate_match_percentage skills (JStr "UI/UX Designer") = Ok 50.
Proof.
  split; [reflexivity|]. split; [|vm_compute; reflexivity].
  eexists; split; vm_compute; reflexivity.
Qed.

(** C8: with an empty keyword list the percentage before clamping is 0, for
    every list of skill names, and the clamped score is 10. *)
Theorem empty_keywords_score (user_skill_names : list string) :
  percentage_of (matching_keywords [] user_skill_names) [] = Ok 0 /\
  score [] user_skill_names = Ok 10.
Proof. split; reflexivity. Qed.

(** *** The handler *)

Lemma handler_on_object (fields : list (string * json)) :
  generate_learning_path (JObj fields) =
  let skills := field "skills" (JArr []) fields in
  let interest := field "interest" (JStr "") fields in
  let target_role := field "target_role" (JStr "") fields in
  try! n := py_len skills in
  LogInfo (log_line target_role n)
    (if negb (truthy skills) || negb (truthy interest) || negb (truthy target_role)
     then Done missing_input
     else
       try! prompt := build_prompt skills interest target_role in
       HttpPost (query_huggingface prompt)
         (fun reply => Done (after_upstream skills target_role reply))).
Proof. reflexivity. Qed.

Lemma empty_or_absent_falsy (k : string) (default : json)
    (fields : list (string * json)) :
  truthy default = false -> empty_or_absent k fields ->
  truthy (field k default fields) = false.
Proof.
  unfold empty_or_absent, field. destruct (lookup k fields); auto.
Qed.

(** A request that passes validation and prompt construction: one log line,
    one upstream call, then the [try]. *)
Lemma handler_reaches_upstream (fields : list (string * json)) (n : Z)
    (prompt : string) (upstream : http_request -> result json) :
  let skills := field "skills" (JArr []) fields in
  let interest := field "interest" (JStr "") fields in
  let target_role := field "target_role" (JStr "") fields in
  py_len skills = Ok n ->
  truthy skills = true -> truthy interest = true -> truthy target_role = true ->
  build_prompt skills interest target_role = Ok prompt ->
  run upstream (generate_learning_path (JObj fields)) =
  ([Logged (log_line target_role n); Posted (query_huggingface prompt)],
   after_upstream skills target_role (upstream (query_huggingface prompt))).
Proof.
  intros skills interest target_role Hlen Hs Hi Ht Hp.
  rewrite handler_on_object; fold skills interest target_role.
  cbv zeta. rewrite Hlen, Hs, Hi, Ht, Hp. reflexivity.
Qed.

(** What the validation does once the log line is past: for an object body
    whose skills value is absent or has a length (a list, a string or an
    object), if skills, interest or target_role is empty or absent, the
    handler answers 400 with the error message and the run holds no upstream
    call. *)
Theorem missing_input_rejected (fields : list (string * json)) (n : Z)
    (upstream : http_request -> result json) :
  py_len (field "skills" (JArr []) fields) = Ok n ->
  empty_or_absent "skills" fields \/ empty_or_absent "interest" fields
    \/ empty_or_absent "target_role" fields ->
  let r := run upstream (generate_learning_path (JObj fields)) in
  snd r = Respond 400 (JObj [("error", JStr "Missing required data")]) /\
  upstream_calls (fst r) = [].
Proof.
  intros Hlen Hmiss.
  assert (Hf : negb (truthy (field "skills" (JArr []) fields))
               || negb (truthy (field "interest" (JStr "") fields))
               || negb (truthy (field "target_role" (JStr "") fields)) = true).
  { destruct Hmiss as [H | [H | H]].
    - apply empty_or_absent_falsy with (default := JArr []) in H; [|reflexivity].
      rewrite H; reflexivity.
    - apply empty_or_absent_falsy with (default := JStr "") in H; [|reflexivity].
      rewrite H; simpl; rewrite orb_true_r; reflexivity.
    - apply empty_or_absent_falsy with (default := JStr "") in H; [|reflexivity].
      rewrite H; simpl; apply orb_true_r. }
  rewrite handler_on_object; cbv zeta.
  rewrite Hlen, Hf. split; reflexivity.
Qed.

Lemma outcome_after_log (upstream : http_request -> result json)
    (line : string) (next : action) :
  snd (run upstream (LogInfo line next)) = snd (run upstream next).
Proof. simpl; destruct (run upstream next); reflexivity. Qed.

Lemma outcome_after_post (upstream : http_request -> result json)
    (req : http_request) (k : result json -> action) :
  snd (run upstream (HttpPost req k)) = snd (run upstream (k (upstream req))).
Proof. simpl; destruct (run upstream (k (upstream req))); reflexivity. Qed.

(** *** Descriptions of the exceptions the code itself raises *)

Ltac described v :=
  let H := fresh in
  intros H; destruct v; simpl in H; inversion H; subst; simpl; discriminate.

Lemma py_get_described v k default e :
  py_get v k default = Err e -> exn_str e <> "".
Proof. described v. Qed.

Lemma py_iter_described v e : py_iter v = Err e -> exn_str e <> "".
Proof. described v. Qed.

Lemma py_lower_described v e : py_lower v = Err e -> exn_str e <> "".
Proof. described v. Qed.

Lemma py_getitem_described v k e : py_getitem v k = Err e -> exn_str e <> "".
Proof.
  intros H; destruct v; simpl in H;
    try (inversion H; subst; simpl; discriminate).
  destruct (lookup k fields); inversion H; subst; simpl; discriminate.
Qed.

Lemma keywords_for_described target_role e :
  keywords_for target_role = Err e -> exn_str e <> "".
Proof. described target_role. Qed.

Lemma percentage_of_described matches keywords e :
  percentage_of matches keywords = Err e -> exn_str e <> "".
Proof.
  unfold percentage_of, truediv.
  destruct keywords; [discriminate|].
  destruct (len (s :: keywords) =? 0); simpl.
  - intros H; inversion H; subst; simpl; discriminate.
  - destruct (fmul_int _ 100); simpl; intros H; inversion H; subst; simpl;
      discriminate.
Qed.

Lemma skill_names_described user_skills e :
  skill_names user_skills = Err e -> exn_str e <> "".
Proof.
  unfold skill_names.
  destruct (py_iter user_skills) as [items|e'] eqn:Hit; simpl.
  - intros H. apply mapM_err_in in H as (s & _ & Hs).
    destruct (py_getitem s "name") as [name|e'] eqn:Hg; simpl in Hs.
    + eapply py_lower_described; eassumption.
    + inversion Hs; subst. eapply py_getitem_described; eassumption.
  - intros H; inversion H; subst. eapply py_iter_described; eassumption.
Qed.

Lemma calculate_described user_skills target_role e :
  calculate_match_percentage user_skills target_role = Err e -> exn_str e <> "".
Proof.
  unfold calculate_match_percentage, score.
  destruct (keywords_for target_role) as [ks|e1] eqn:Hk; simpl.
  - destruct (skill_names user_skills) as [names|e2] eqn:Hn; simpl.
    + destruct (percentage_of _ ks) as [p|e3] eqn:Hp; simpl; [discriminate|].
      intros H; inversion H; subst.
      eapply percentage_of_described; eassumption.
    + intros H; inversion H; subst.
      eapply skill_names_described; eassumption.
  - intros H; inversion H; subst.
    eapply keywords_for_described; eassumption.
Qed.

Lemma shape_reply_described hf_response e :
  shape_reply hf_response = Err e -> exn_str e <> "".
Proof.
  destruct hf_response; simpl; try discriminate.
  destruct items; [discriminate|]. apply py_get_described.
Qed.

(** An exception of the [try] with an empty description is the one the
    upstream call raised. *)
Lemma try_body_described skills target_role reply e :
  try_body skills target_role reply = Err e ->
  exn_str e = "" -> reply = Err e.
Proof.
  unfold try_body.
  destruct reply as [hf|e0]; simpl; [|congruence].
  destruct (shape_reply hf) as [g|e1] eqn:Hs; simpl.
  - destruct (calculate_match_percentage skills target_role) as [v|e2] eqn:Hc;
      simpl; [discriminate|].
    intros H He; inversion H; subst.
    destruct (calculate_described _ _ _ Hc He).
  - intros H He; inversion H; subst.
    destruct (shape_reply_described _ _ Hs He).
Qed.

(** C4 (as amended): for every exception raised by the upstream call or by the
    shaping of its reply, the handler answers 500 with success false and the
    exception's description as the error string; that string is empty only
    when the upstream call raised an exception whose own description is
    empty. *)
Theorem upstream_failure_shape (fields : list (string * json)) (n : Z)
    (prompt : string) (upstream : http_request -> result json) (e : exn) :
  let skills := field "skills" (JArr []) fields in
  let interest := field "interest" (JStr "") fields in
  let target_role := field "target_role" (JStr "") fields in
  py_len skills = Ok n ->
  truthy skills = true -> truthy interest = true -> truthy target_role = true ->
  build_prompt skills interest target_role = Ok prompt ->
  try_body skills target_role (upstream (query_huggingface prompt)) = Err e ->
  snd (run upstream (generate_learning_path (JObj fields)))
    = Respond 500 (JObj [("success", JBool false); ("error", JStr (exn_str e))])
  /\ (exn_str e = "" -> upstream (query_huggingface prompt) = Err e).
Proof.
  intros skills interest target_role Hlen Hs Hi Ht Hp Htry.
  rewrite (handler_reaches_upstream fields n prompt upstream Hlen Hs Hi Ht Hp).
  fold skills target_role. unfold after_upstream. simpl.
  rewrite Htry. split; [reflexivity|].
  eapply try_body_described; eassumption.
Qed.

(** The percentage in a 200 response is the estimator's value on the skills
    and the target role of the request. *)
Lemma response_match_percentage (fields : list (string * json))
    (upstream : http_request -> result json) (p : json) :
  match_percentage_of (snd (run upstream (generate_learning_path (JObj fields))))
    = Some p ->
  exists v,
    calculate_match_percentage (field "skills" (JArr []) fields)
                               (field "target_role" (JStr "") fields) = Ok v
    /\ p = JInt v.
Proof.
  rewrite handler_on_object; cbv zeta.
  destruct (py_len _) as [n|]; [|discriminate].
  rewrite outcome_after_log.
  destruct (negb _ || negb _ || negb _); [discriminate|].
  destruct (build_prompt _ _ _) as [prompt|]; [|discriminate].
  rewrite outcome_after_post. simpl. unfold after_upstream, try_body.
  destruct (upstream _) as [hf|]; simpl; [|discriminate].
  destruct (shape_reply hf) as [g|]; simpl; [|discriminate].
  destruct (calculate_match_percentage _ _) as [v|]; simpl; [|discriminate].
  intros H; inversion H. exists v; split; reflexivity.
Qed.

(** C9: two runs of the handler on requests with the same skills and the same
    target role report the same match percentage, whatever the interest
    strings and whatever the upstream replies. *)
Theorem match_percentage_deterministic
    (fields1 fields2 : list (string * json))
    (upstream1 upstream2 : http_request -> result json) (p1 p2 : json) :
  lookup "skills" fields1 = lookup "skills" fields2 ->
  lookup "target_role" fields1 = lookup "target_role" fields2 ->
  match_percentage_of
    (snd (run upstream1 (generate_learning_path (JObj fields1)))) = Some p1 ->
  match_percentage_of
    (snd (run upstream2 (generate_learning_path (JObj fields2)))) = Some p2 ->
  p1 = p2.
Proof.
  intros Hs Ht H1 H2.
  apply response_match_percentage in H1 as (v1 & Hv1 & ->).
  apply response_match_percentage in H2 as (v2 & Hv2 & ->).
  unfold field in Hv1, Hv2. rewrite Hs, Ht in Hv1. congruence.
Qed.

(** C10: for every request with a list of skills, a non-empty interest and a
    non-empty target role, in which some skill object has no name field,
    building the prompt raises a KeyError or TypeError that leaves the
    handler: the run is the log line alone, with no upstream call, and ends
    in neither the 400 nor the 500 response. *)
Theorem nameless_skill_escapes (fields : list (string * json))
    (items : list json) (s : json) :
  lookup "skills" fields = Some (JArr items) ->
  truthy (field "interest" (JStr "") fields) = true ->
  truthy (field "target_role" (JStr "") fields) = true ->
  In s items -> lacks_name s ->
  exists e,
    (exn_class_of e = KeyError \/ exn_class_of e = TypeError) /\
    forall upstream,
      run upstream (generate_learning_path (JObj fields))
      = ([Logged (log_line (field "target_role" (JStr "") fields) (len items))],
         Unhandled e).
Proof.
  intros Hsk Hi Ht Hin (flds & -> & Hname).
  assert (Hfail : exists e, mapM (fun x => py_getitem x "name") items = Err e).
  { apply mapM_fails with (x := JObj flds); [assumption|].
    intros y; simpl; rewrite Hname; discriminate. }
  destruct Hfail as (e & He). exists e. split.
  - apply mapM_err_in in He as (x & _ & Hx).
    destruct x; simpl in Hx; inversion Hx; subst; simpl; auto.
    destruct (lookup "name" fields0); inversion Hx; subst; simpl; auto.
  - intros upstream. rewrite handler_on_object; cbv zeta.
    assert (Hf : field "skills" (JArr []) fields = JArr items)
      by (unfold field; rewrite Hsk; reflexivity).
    rewrite Hf, Hi, Ht. simpl py_len. cbv iota.
    assert (Hts : truthy (JArr items) = true) by (destruct items; [destruct Hin | reflexivity]).
    rewrite Hts. simpl. unfold build_prompt. simpl. rewrite He. reflexivity.
Qed.

(** *** More on the Match Estimator *)

Lemma mapM_ok_all {A B} (f : A -> result B) (l : list A) (ys : list B) :
  mapM f l = Ok ys -> Forall (fun x => exists y, f x = Ok y) l.
Proof.
  revert ys; induction l as [|x l IH]; intros ys H; [constructor|].
  simpl in H.
  destruct (f x) as [y|] eqn:Hx; simpl in H; [|discriminate].
  destruct (mapM f l) as [ys'|]; simpl in H; [|discriminate].
  constructor; [exists y; exact Hx | eapply IH; reflexivity].
Qed.

Lemma skill_item_named (s : json) (y : string) :
  (name <- py_getitem s "name";; py_lower name) = Ok y -> skill_object s.
Proof.
  destruct s; simpl; try discriminate.
  destruct (lookup "name" fields) as [v|] eqn:Hl; simpl; [|discriminate].
  destruct v; simpl; try discriminate.
  intros _; exists fields, s; auto.
Qed.

Lemma skill_names_of_items (user_skills : json) (items : list json) :
  py_iter user_skills = Ok items -> Forall skill_object items ->
  exists names, skill_names user_skills = Ok names.
Proof.
  intros Hit H; unfold skill_names; rewrite Hit; simpl.
  apply mapM_total.
  eapply Forall_impl; [|exact H].
  intros s (fields & name & -> & Hname); simpl.
  rewrite Hname; simpl; eexists; reflexivity.
Qed.

Lemma skill_names_items (user_skills : json) (names : list string) :
  skill_names user_skills = Ok names ->
  exists items, py_iter user_skills = Ok items /\ Forall skill_object items.
Proof.
  unfold skill_names.
  destruct (py_iter user_skills) as [items|]; simpl; [|discriminate].
  intros H; exists items; split; [reflexivity|].
  apply mapM_ok_all in H.
  eapply Forall_impl; [|exact H].
  intros s (y & Hy); eapply skill_item_named; exact Hy.
Qed.

Lemma keywords_for_ok (target_role : json) (ks : list string) :
  keywords_for target_role = Ok ks ->
  hashable target_role = true /\ ks <> [] /\ (List.length ks <= 6)%nat.
Proof.
  intros H.
  destruct target_role;
    try (simpl in H; discriminate);
    try (inversion H; subst; split; [reflexivity|];
         split; [discriminate | simpl; lia]).
  destruct (keywords_for_str s) as (ks' & Hks & Hne & Hlen).
  rewrite Hks in H; inversion H; subst; auto.
Qed.

Lemma keywords_for_hashable (target_role : json) :
  hashable target_role = true -> exists ks, keywords_for target_role = Ok ks.
Proof. destruct target_role; simpl; try discriminate; eexists; reflexivity. Qed.

(** X12: the estimator returns a percentage exactly when the target role is
    hashable (not a list or dict) and the skills can be iterated into
    objects that each have a string name; otherwise it raises. *)
Theorem estimator_returns_iff_well_formed (user_skills target_role : json) :
  (exists v, calculate_match_percentage user_skills target_role = Ok v) <->
  hashable target_role = true /\
  exists items, py_iter user_skills = Ok items /\ Forall skill_object items.
Proof.
  unfold calculate_match_percentage; split.
  - intros (v & H).
    destruct (keywords_for target_role) as [ks|] eqn:Hk; simpl in H;
      [|discriminate].
    destruct (skill_names user_skills) as [names|] eqn:Hn; simpl in H;
      [|discriminate].
    split; [eapply keywords_for_ok; exact Hk | eapply skill_names_items; exact Hn].
  - intros (Hh & items & Hit & Hwf).
    destruct (keywords_for_hashable _ Hh) as (ks & Hk).
    destruct (skill_names_of_items _ _ Hit Hwf) as (names & Hn).
    destruct (keywords_for_ok _ _ Hk) as (_ & Hne & Hlen).
    rewrite Hk, Hn; simpl. rewrite score_floor by (auto; lia).
    eexists; reflexivity.
Qed.

Lemma getitem_class (s : json) (k : string) (e : exn) :
  py_getitem s k = Err e ->
  exn_class_of e = KeyError \/ exn_class_of e = TypeError.
Proof.
  destruct s; simpl; intros H; inversion H; subst; simpl; auto.
  destruct (lookup k fields); inversion H; subst; simpl; auto.
Qed.

(** X13: whatever its arguments, the estimator raises only KeyError,
    TypeError or AttributeError: the division and the conversion to int
    never fail, since no keyword list of the table is empty. *)
Theorem estimator_error_classes (user_skills target_role : json) (e : exn) :
  calculate_match_percentage user_skills target_role = Err e ->
  exn_class_of e = KeyError \/ exn_class_of e = TypeError
    \/ exn_class_of e = AttributeError.
Proof.
  unfold calculate_match_percentage.
  destruct (keywords_for target_role) as [ks|e1] eqn:Hk; simpl.
  - destruct (keywords_for_ok _ _ Hk) as (_ & Hne & Hlen).
    destruct (skill_names user_skills) as [names|e2] eqn:Hn; simpl.
    + rewrite score_floor by (auto; lia). discriminate.
    + intros H; inversion H; subst. unfold skill_names in Hn.
      destruct (py_iter user_skills) as [items|e3] eqn:Hit; simpl in Hn.
      * apply mapM_err_in in Hn as (s & _ & Hs).
        destruct (py_getitem s "name") as [name|e4] eqn:Hg; simpl in Hs.
        -- destruct name; simpl in Hs; inversion Hs; subst; simpl; auto.
        -- inversion Hs; subst.
           destruct (getitem_class _ _ _ Hg); auto.
      * inversion Hn; subst.
        destruct user_skills; simpl in Hit; inversion Hit; subst; simpl; auto.
  - intros H; inversion H; subst.
    destruct target_role; simpl in Hk; inversion Hk; subst; simpl; auto.
Qed.

Lemma filter_length_mono {A} (p q : A -> bool) (l : list A) :
  (forall x, In x l -> p x = true -> q x = true) ->
  (List.length (filter p l) <= List.length (filter q l))%nat.
Proof.
  induction l as [|x l IH]; intros H; simpl; [lia|].
  assert (IH' := IH (fun y Hy => H y (or_intror Hy))).
  destruct (p x) eqn:Hp.
  - rewrite (H x (or_introl eq_refl) Hp); simpl; lia.
  - destruct (q x); simpl; lia.
Qed.

Lemma matched_incl (names names' : list string) (k : string) :
  incl names names' -> matched names k = true -> matched names' k = true.
Proof.
  unfold matched; rewrite !existsb_exists.
  intros Hincl (us & Hin & H); exists us; auto.
Qed.

Lemma score_mono (ks names names' : list string) :
  ks <> [] -> (List.length ks <= 49)%nat -> incl names names' ->
  exists v v', score ks names = Ok v /\ score ks names' = Ok v' /\ v <= v'.
Proof.
  intros Hne Hlen Hincl.
  rewrite !score_floor by assumption.
  do 2 eexists; split; [reflexivity | split; [reflexivity|]].
  assert (Hm : len (matching_keywords ks names)
               <= len (matching_keywords ks names')).
  { unfold len, matching_keywords. apply Nat2Z.inj_le.
    apply filter_length_mono. intros k _; apply matched_incl; assumption. }
  assert (Hpos : 0 < len ks).
  { unfold len; destruct ks; [congruence | simpl; lia]. }
  assert (Hd : 100 * len (matching_keywords ks names) / len ks
               <= 100 * len (matching_keywords ks names') / len ks).
  { apply Z.div_le_mono; lia. }
  unfold clamp; lia.
Qed.

Lemma skill_names_incl (items items' : list json) (names names' : list string) :
  skill_names (JArr items) = Ok names ->
  skill_names (JArr items') = Ok names' ->
  incl items items' -> incl names names'.
Proof.
  unfold skill_names; simpl. intros H H' Hincl y Hy.
  apply (mapM_ok_in _ _ _ H) in Hy as (s & Hs & Hf).
  apply (mapM_ok_in _ _ _ H'). exists s; auto.
Qed.

Lemma skills_compared (role : json) (items items' : list json) :
  Forall skill_object items' -> incl items items' ->
  hashable role = true ->
  exists v v',
    calculate_match_percentage (JArr items) role = Ok v /\
    calculate_match_percentage (JArr items') role = Ok v' /\ v <= v'.
Proof.
  intros Hwf' Hincl Hh.
  assert (Hwf : Forall skill_object items).
  { rewrite Forall_forall in *; auto. }
  destruct (keywords_for_hashable _ Hh) as (ks & Hk).
  destruct (keywords_for_ok _ _ Hk) as (_ & Hne & Hlen).
  destruct (skill_names_total _ Hwf) as (names & Hn).
  destruct (skill_names_total _ Hwf') as (names' & Hn').
  unfold calculate_match_percentage. rewrite Hk, Hn, Hn'; simpl.
  apply score_mono; [assumption | lia |].
  eapply skill_names_incl; eassumption.
Qed.

(** X14: for well-formed skills and a role string, adding skills to the list
    (or repeating or reordering them) never lowers the match percentage. *)
Theorem more_skills_never_lower (role : string) (items items' : list json) :
  Forall skill_object items' -> incl items items' ->
  exists v v',
    calculate_match_percentage (JArr items) (JStr role) = Ok v /\
    calculate_match_percentage (JArr items') (JStr role) = Ok v' /\ v <= v'.
Proof. intros Hwf Hincl; apply skills_compared; auto. Qed.

(** X15: for well-formed skills, the match percentage depends only on the set
    of skills: two lists with the same members, in any order and with any
    repetitions, give the same result. *)
Theorem skills_order_irrelevant (role : json) (items items' : list json) :
  Forall skill_object items -> incl items items' -> incl items' items ->
  calculate_match_percentage (JArr items) role
  = calculate_match_percentage (JArr items') role.
Proof.
  intros Hwf H1 H2.
  assert (Hwf' : Forall skill_object items').
  { rewrite Forall_forall in *; auto. }
  destruct (hashable role) eqn:Hh.
  - destruct (skills_compared role items items' Hwf' H1 Hh)
      as (v & v' & Hv & Hv' & Hle).
    destruct (skills_compared role items' items Hwf H2 Hh)
      as (w' & w & Hw' & Hw & Hle').
    rewrite Hv, Hv'. f_equal. rewrite Hv in Hw; rewrite Hv' in Hw'.
    inversion Hw; inversion Hw'; subst; lia.
  - unfold calculate_match_percentage.
    destruct (keywords_for role) as [ks|e] eqn:Hk; [|reflexivity].
    apply keywords_for_ok in Hk as (Hh' & _); congruence.
Qed.

Lemma filter_none {A} (p : A -> bool) (l : list A) :
  (forall x, In x l -> p x = false) -> filter p l = [].
Proof.
  induction l as [|x l IH]; intros H; simpl; [reflexivity|].
  rewrite (H x (or_introl eq_refl)). apply IH; intros; apply H; right; auto.
Qed.

Lemma filter_all {A} (p : A -> bool) (l : list A) :
  (forall x, In x l -> p x = true) -> filter p l = l.
Proof.
  induction l as [|x l IH]; intros H; simpl; [reflexivity|].
  rewrite (H x (or_introl eq_refl)). f_equal; apply IH; intros; apply H; right; auto.
Qed.

(** X16: the band's ends are what the extremes get: when no keyword of the
    role is a substring of any lower-cased skill name the result is 10, not
    0, and when every keyword is matched the result is 95, not 100. *)
Theorem score_extremes (user_skills target_role : json)
    (ks names : list string) :
  keywords_for target_role = Ok ks ->
  skill_names user_skills = Ok names ->
  ((forall k us, In k ks -> In us names -> ~ is_substring k us) ->
   calculate_match_percentage user_skills target_role = Ok 10) /\
  ((forall k, In k ks -> exists us, In us names /\ is_substring k us) ->
   calculate_match_percentage user_skills target_role = Ok 95).
Proof.
  intros Hk Hn.
  destruct (keywords_for_ok _ _ Hk) as (_ & Hne & Hlen).
  unfold calculate_match_percentage; rewrite Hk, Hn; simpl.
  rewrite score_floor by (auto; lia).
  split; intros H.
  - unfold matching_keywords. rewrite filter_none.
    + reflexivity.
    + intros k Hin. destruct (matched names k) eqn:Hm; [|reflexivity].
      apply matched_spec in Hm as (us & Hus & Hsub).
      destruct (H k us Hin Hus Hsub).
  - unfold matching_keywords. rewrite filter_all.
    + assert (Hpos : 0 < len ks).
      { unfold len; destruct ks; [congruence | simpl; lia]. }
      rewrite Z.div_mul by lia. reflexivity.
    + intros k Hin. apply matched_spec; auto.
Qed.

(** X17: for skills with ASCII names, letter case is irrelevant: two skill
    lists whose names agree item by item up to case get the same result, for
    any target role. *)
Theorem letter_case_irrelevant (target_role : json) (items items' : list json) :
  Forall2 same_name_up_to_case items items' ->
  calculate_match_percentage (JArr items) target_role
  = calculate_match_percentage (JArr items') target_role.
Proof.
  intros H.
  assert (Hn : skill_names (JArr items) = skill_names (JArr items')).
  { unfold skill_names; simpl.
    induction H as [|s s' l l' Hs _ IH]; [reflexivity|].
    destruct Hs as (f & f' & n & n' & -> & Hl & -> & Hl' & Ha & Ha' & Heq).
    simpl. rewrite Hl, Hl'; simpl. unfold str_lower. rewrite Ha, Ha', Heq.
    rewrite IH. reflexivity. }
  unfold calculate_match_percentage. rewrite Hn. reflexivity.
Qed.

(** *** The prompt *)

Lemma append_assoc (a b c : string) : (a ++ b) ++ c = a ++ (b ++ c).
Proof. induction a as [|x a IH]; simpl; [reflexivity | rewrite IH; reflexivity]. Qed.

Lemma append_empty_r (a : string) : a ++ "" = a.
Proof. induction a as [|x a IH]; simpl; [reflexivity | rewrite IH; reflexivity]. Qed.

Lemma is_substring_head (k q : string) : is_substring k (k ++ q).
Proof. exists "", q; reflexivity. Qed.

Lemma is_substring_self (k : string) : is_substring k k.
Proof. exists "", ""; simpl; rewrite append_empty_r; reflexivity. Qed.

Lemma is_substring_after (k p u : string) :
  is_substring k u -> is_substring k (p ++ u).
Proof.
  intros (pre & post & ->). exists (p ++ pre), post.
  rewrite append_assoc; reflexivity.
Qed.

Lemma is_substring_cons (k u : string) (c : ascii) :
  is_substring k u -> is_substring k (String c u).
Proof. apply (is_substring_after k (String c "") u). Qed.

Lemma is_substring_before (k u q : string) :
  is_substring k u -> is_substring k (u ++ q).
Proof.
  intros (pre & post & ->). exists pre, (post ++ q).
  rewrite !append_assoc; reflexivity.
Qed.

Lemma is_substring_join (sep : string) (ss : list string) (x : string) :
  In x ss -> is_substring x (join sep ss).
Proof.
  induction ss as [|y ss IH]; [intros []|].
  intros Hin. destruct ss as [|z ss].
  - destruct Hin as [-> | []]. apply is_substring_self.
  - change (join sep (y :: z :: ss)) with (y ++ sep ++ join sep (z :: ss)).
    destruct Hin as [-> | Hin].
    + apply is_substring_head.
    + do 2 apply is_substring_after. apply IH; assumption.
Qed.

Lemma str_items_strings (i : Z) (l : list json) (ss : list string) :
  str_items i l = Ok ss -> l = map JStr ss.
Proof.
  revert i ss; induction l as [|v l IH]; intros i ss H; simpl in H.
  - inversion H; reflexivity.
  - destruct v; try discriminate.
    destruct (str_items (i + 1) l) as [ss'|] eqn:Hr; simpl in H; [|discriminate].
    inversion H; subst; simpl. f_equal. eapply IH; exact Hr.
Qed.

(** X11: a prompt that gets built contains, as text, the request's interest,
    its target role and the name of every skill. *)
Theorem prompt_mentions_request (skills interest target_role : json)
    (prompt : string) :
  build_prompt skills interest target_role = Ok prompt ->
  is_substring (py_str interest) prompt /\
  is_substring (py_str target_role) prompt /\
  forall items s name,
    py_iter skills = Ok items -> In s items ->
    py_getitem s "name" = Ok (JStr name) -> is_substring name prompt.
Proof.
  unfold build_prompt.
  destruct (py_iter skills) as [items|] eqn:Hit; cbn [bind]; [|discriminate].
  destruct (mapM (fun s => py_getitem s "name") items) as [names|] eqn:Hm;
    cbn [bind]; [|discriminate].
  unfold py_join.
  destruct (str_items 0 names) as [ss|] eqn:Hs; cbn [bind]; [|discriminate].
  intros H; inversion H; subst; clear H.
  split; [|split].
  - repeat first [ apply is_substring_head
                 | apply is_substring_cons
                 | apply is_substring_after ].
  - repeat first [ apply is_substring_head
                 | apply is_substring_cons
                 | apply is_substring_after ].
  - intros items' s name Hit' Hin Hg. inversion Hit'; subst items'.
    repeat apply is_substring_cons. apply is_substring_before.
    apply is_substring_join.
    apply str_items_strings in Hs. 
    assert (Hj : In (JStr name) names).
    { apply (mapM_ok_in _ _ _ Hm). exists s; auto. }
    rewrite Hs in Hj. apply in_map_iff in Hj as (x & Hx & Hin').
    inversion Hx; subst; assumption.
Qed.

(** *** More on the handler *)

Lemma handler_run (data : json) (upstream : http_request -> result json) :
  run upstream (generate_learning_path data) =
  match data with
  | JObj fields =>
      let skills := field "skills" (JArr []) fields in
      let interest := field "interest" (JStr "") fields in
      let target_role := field "target_role" (JStr "") fields in
      match py_len skills with
      | Err e => ([], Unhandled e)
      | Ok n =>
          if negb (truthy skills) || negb (truthy interest)
             || negb (truthy target_role)
          then ([Logged (log_line target_role n)], missing_input)
          else
            match build_prompt skills interest target_role with
            | Err e => ([Logged (log_line target_role n)], Unhandled e)
            | Ok prompt =>
                ([Logged (log_line target_role n);
                  Posted (query_huggingface prompt)],
                 after_upstream skills target_role
                   (upstream (query_huggingface prompt)))
            end
      end
  | _ => ([], Unhandled
                (Raise AttributeError
                   (quoted (type_name data) ++ " object has no attribute 'get'")))
  end.
Proof.
  destruct data; try reflexivity.
  rewrite handler_on_object; cbv zeta.
  destruct (py_len _); [|reflexivity]. simpl.
  destruct (negb _ || negb _ || negb _); [reflexivity|].
  destruct (build_prompt _ _ _); reflexivity.
Qed.

Lemma after_upstream_cases (skills target_role : json) (reply : result json) :
  (exists g v,
      calculate_match_percentage skills target_role = Ok v /\
      after_upstream skills target_role reply
      = Respond 200 (success_body g v target_role)) \/
  (exists msg,
      after_upstream skills target_role reply = Respond 500 (failure_body msg)).
Proof.
  unfold after_upstream, try_body.
  destruct reply as [hf|e]; simpl; [|right; eexists; reflexivity].
  destruct (shape_reply hf) as [g|e]; simpl; [|right; eexists; reflexivity].
  destruct (calculate_match_percentage skills target_role) as [v|e]; simpl;
    [|right; eexists; reflexivity].
  left; exists g, v; auto.
Qed.

(** X1: whatever the request and the upstream, a run of the handler has one
    of three shapes: nothing happens and an exception escapes; one log line,
    then the 400 response or an escaping exception; one log line, then exactly
    one upstream call, then a 200 or the 500 failure response.  So the
    upstream is called at most once, never before the log line, and the 500
    failure shape only follows an upstream call. *)
Theorem handler_trace_shape (data : json)
    (upstream : http_request -> result json) :
  let r := run upstream (generate_learning_path data) in
  (fst r = [] /\ exists e, snd r = Unhandled e) \/
  (exists line,
      fst r = [Logged line] /\
      (snd r = Respond 400 (JObj [("error", JStr "Missing required data")])
       \/ exists e, snd r = Unhandled e)) \/
  (exists line prompt,
      fst r = [Logged line; Posted (query_huggingface prompt)] /\
      ((exists body, snd r = Respond 200 body) \/
       exists msg,
         snd r = Respond 500
                   (JObj [("success", JBool false); ("error", JStr msg)]))).
Proof.
  cbv zeta. rewrite handler_run.
  destruct data; try (left; split; [reflexivity | eexists; reflexivity]).
  cbv zeta. destruct (py_len _) as [n|e];
    [|left; split; [reflexivity | eexists; reflexivity]].
  right.
  destruct (negb _ || negb _ || negb _).
  - left; eexists; split; [reflexivity | left; reflexivity].
  - destruct (build_prompt _ _ _) as [prompt|e].
    + right. exists (log_line (field "target_role" (JStr "") fields) n), prompt.
      split; [reflexivity|]. simpl.
      destruct (after_upstream_cases (field "skills" (JArr []) fields)
                  (field "target_role" (JStr "") fields)
                  (upstream (query_huggingface prompt)))
        as [(g & v & _ & ->) | (msg & ->)].
      * left; eexists; reflexivity.
      * right; exists msg; reflexivity.
    + left; eexists; split; [reflexivity | right; eexists; reflexivity].
Qed.

(** X2: a body that decodes to anything but an object (a list, a string, a
    number, null) makes the first [.get] raise AttributeError, which escapes:
    nothing is logged, nothing is sent and no 400 is returned. *)
Theorem non_object_body_escapes (data : json)
    (upstream : http_request -> result json) :
  (forall fields, data <> JObj fields) ->
  run upstream (generate_learning_path data)
  = ([], Unhandled
           (Raise AttributeError
              (quoted (type_name data) ++ " object has no attribute 'get'"))).
Proof.
  intros H. rewrite handler_run.
  destruct data; try reflexivity. destruct (H fields eq_refl).
Qed.

Lemma str_items_of_strings (i : Z) (ss : list string) :
  str_items i (map JStr ss) = Ok ss.
Proof.
  revert i; induction ss as [|s ss IH]; intros i; simpl; [reflexivity|].
  rewrite IH; reflexivity.
Qed.

Lemma names_of_skill_objects (items : list json) :
  Forall skill_object items ->
  exists ss, mapM (fun s => py_getitem s "name") items = Ok (map JStr ss).
Proof.
  induction 1 as [|s l (f & name & -> & Hname) _ (ss & IH)].
  - exists []; reflexivity.
  - exists (name :: ss); simpl. rewrite Hname; simpl. rewrite IH; reflexivity.
Qed.

Lemma mapM_ok_each {A B} (f : A -> result B) (l : list A) (ys : list B) :
  mapM f l = Ok ys ->
  forall x, In x l -> exists y, In y ys /\ f x = Ok y.
Proof.
  revert ys; induction l as [|x l IH]; intros ys H x' Hin; [destruct Hin|].
  simpl in H.
  destruct (f x) as [y|] eqn:Hx; simpl in H; [|discriminate].
  destruct (mapM f l) as [ys'|]; simpl in H; [|discriminate].
  inversion H; subst; clear H.
  destruct Hin as [<- | Hin].
  - exists y; split; [left; reflexivity | exact Hx].
  - destruct (IH ys' eq_refl x' Hin) as (y' & Hy' & Hf).
    exists y'; split; [right; assumption | assumption].
Qed.

(** The prompt gets built exactly when the skills iterate into objects that
    each have a string name. *)
Lemma build_prompt_ok_iff (skills interest target_role : json) :
  (exists prompt, build_prompt skills interest target_role = Ok prompt) <->
  exists items, py_iter skills = Ok items /\ Forall skill_object items.
Proof.
  unfold build_prompt, py_join; split.
  - intros (prompt & H).
    destruct (py_iter skills) as [items|]; cbn [bind] in H; [|discriminate].
    destruct (mapM _ items) as [names|] eqn:Hm; cbn [bind] in H; [|discriminate].
    destruct (str_items 0 names) as [ss|] eqn:Hs; cbn [bind] in H; [|discriminate].
    exists items; split; [reflexivity|].
    apply str_items_strings in Hs; subst names.
    apply Forall_forall; intros s Hin.
    destruct (mapM_ok_each _ _ _ Hm s Hin) as (y & Hy & Hg).
    apply in_map_iff in Hy as (name & <- & _).
    destruct s; simpl in Hg; try discriminate.
    destruct (lookup "name" fields) as [v|] eqn:Hl; [|discriminate].
    inversion Hg; subst. exists fields, name; auto.
  - intros (items & Hit & Hwf).
    destruct (names_of_skill_objects _ Hwf) as (ss & Hm).
    rewrite Hit; cbn [bind]. rewrite Hm; cbn [bind].
    rewrite str_items_of_strings; cbn [bind]. eexists; reflexivity.
Qed.

Lemma iterable_has_len (v : json) (items : list json) :
  py_iter v = Ok items -> exists n, py_len v = Ok n.
Proof. destruct v; simpl; try discriminate; intros _; eexists; reflexivity. Qed.

(** X3: the upstream is called exactly when the body is an object whose
    skills, interest and target role are all non-empty and whose skills
    iterate into objects that each have a string name. *)
Theorem upstream_called_iff (data : json)
    (upstream : http_request -> result json) :
  upstream_calls (fst (run upstream (generate_learning_path data))) <> [] <->
  exists fields,
    data = JObj fields /\
    truthy (field "skills" (JArr []) fields) = true /\
    truthy (field "interest" (JStr "") fields) = true /\
    truthy (field "target_role" (JStr "") fields) = true /\
    exists items,
      py_iter (field "skills" (JArr []) fields) = Ok items /\
      Forall skill_object items.
Proof.
  rewrite handler_run. split.
  - intros H. destruct data; try (destruct H; reflexivity).
    cbv zeta in H. exists fields; split; [reflexivity|].
    destruct (py_len _) as [n|]; [|destruct H; reflexivity].
    destruct (truthy (field "skills" (JArr []) fields));
      [|destruct H; reflexivity].
    destruct (truthy (field "interest" (JStr "") fields));
      [|destruct H; reflexivity].
    destruct (truthy (field "target_role" (JStr "") fields));
      [|destruct H; reflexivity].
    simpl in H. repeat split.
    destruct (build_prompt _ _ _) as [prompt|] eqn:Hp;
      [|destruct H; reflexivity].
    eapply build_prompt_ok_iff. eexists; exact Hp.
  - intros (fields & -> & Hs & Hi & Ht & items & Hit & Hwf). cbv zeta.
    destruct (iterable_has_len _ _ Hit) as (n & ->).
    rewrite Hs, Hi, Ht. simpl.
    destruct (proj2 (build_prompt_ok_iff _ (field "interest" (JStr "") fields)
                       (field "target_role" (JStr "") fields))
                (ex_intro _ items (conj Hit Hwf))) as (prompt & ->).
    simpl. discriminate.
Qed.

(** X4: every 200 response of the handler has success true, echoes the
    request's target role, and carries the estimator's percentage for the
    request's skills and role, which lies in 10..95. *)
Theorem response_200_shape (data : json)
    (upstream : http_request -> result json) (body : json) :
  snd (run upstream (generate_learning_path data)) = Respond 200 body ->
  exists fields generated_text v,
    data = JObj fields /\
    body = JObj [ ("success", JBool true);
                  ("learning_path", generated_text);
                  ("match_percentage", JInt v);
                  ("target_role", field "target_role" (JStr "") fields) ] /\
    calculate_match_percentage (field "skills" (JArr []) fields)
      (field "target_role" (JStr "") fields) = Ok v /\
    10 <= v <= 95.
Proof.
  rewrite handler_run.
  destruct data; try discriminate. cbv zeta.
  destruct (py_len _) as [n|]; [|discriminate].
  destruct (negb _ || negb _ || negb _); [discriminate|].
  destruct (build_prompt _ _ _) as [prompt|]; [|discriminate].
  simpl.
  destruct (after_upstream_cases (field "skills" (JArr []) fields)
              (field "target_role" (JStr "") fields)
              (upstream (query_huggingface prompt)))
    as [(g & v & Hv & ->) | (msg & ->)]; [|discriminate].
  intros H; inversion H; subst.
  exists fields, g, v. repeat split; auto; eapply calculate_in_band; exact Hv.
Qed.

(** X5: a 400 response is returned only for an object body in which skills,
    interest or target role is empty or absent, and its body is the fixed
    error message. *)
Theorem response_400_only_when_missing (data : json)
    (upstream : http_request -> result json) (body : json) :
  snd (run upstream (generate_learning_path data)) = Respond 400 body ->
  body = JObj [("error", JStr "Missing required data")] /\
  exists fields,
    data = JObj fields /\
    (truthy (field "skills" (JArr []) fields) = false \/
     truthy (field "interest" (JStr "") fields) = false \/
     truthy (field "target_role" (JStr "") fields) = false).
Proof.
  rewrite handler_run.
  destruct data; try discriminate. cbv zeta.
  destruct (py_len _) as [n|]; [|discriminate].
  destruct (truthy (field "skills" (JArr []) fields)) eqn:Hs.
  - destruct (truthy (field "interest" (JStr "") fields)) eqn:Hi.
    + destruct (truthy (field "target_role" (JStr "") fields)) eqn:Ht.
      * simpl. destruct (build_prompt _ _ _) as [prompt|]; [|discriminate].
        simpl.
        destruct (after_upstream_cases (field "skills" (JArr []) fields)
                    (field "target_role" (JStr "") fields)
                    (upstream (query_huggingface prompt)))
          as [(g & v & _ & ->) | (msg & ->)]; discriminate.
      * simpl. intros H; inversion H; split; [reflexivity|].
        exists fields; auto.
    + simpl. intros H; inversion H; split; [reflexivity|].
      exists fields; auto.
  - simpl. intros H; inversion H; split; [reflexivity|].
    exists fields; auto.
Qed.

Lemma estimator_total (user_skills target_role : json) (items : list json) :
  hashable target_role = true ->
  py_iter user_skills = Ok items -> Forall skill_object items ->
  exists v, calculate_match_percentage user_skills target_role = Ok v.
Proof.
  intros Hh Hit Hwf. unfold calculate_match_percentage.
  destruct (keywords_for_hashable _ Hh) as (ks & Hk).
  destruct (skill_names_of_items _ _ Hit Hwf) as (names & Hn).
  destruct (keywords_for_ok _ _ Hk) as (_ & Hne & Hlen).
  rewrite Hk, Hn; simpl. rewrite score_floor by (auto; lia).
  eexists; reflexivity.
Qed.

(** A well-formed request reaches the [try]: the estimator has a value for
    it, and the outcome is decided by the upstream reply alone. *)
Lemma well_formed_run (fields : list (string * json))
    (upstream : http_request -> result json) :
  well_formed_request fields ->
  exists n prompt v,
    build_prompt (field "skills" (JArr []) fields)
      (field "interest" (JStr "") fields)
      (field "target_role" (JStr "") fields) = Ok prompt /\
    calculate_match_percentage (field "skills" (JArr []) fields)
      (field "target_role" (JStr "") fields) = Ok v /\
    run upstream (generate_learning_path (JObj fields))
    = ([Logged (log_line (field "target_role" (JStr "") fields) n);
        Posted (query_huggingface prompt)],
       after_upstream (field "skills" (JArr []) fields)
         (field "target_role" (JStr "") fields)
         (upstream (query_huggingface prompt))).
Proof.
  intros (items & Hs & Hne & Hwf & Hi & Ht & Hh).
  destruct (proj2 (build_prompt_ok_iff (JArr items)
                     (field "interest" (JStr "") fields)
                     (field "target_role" (JStr "") fields))
              (ex_intro _ items (conj eq_refl Hwf))) as (prompt & Hp).
  destruct (estimator_total (JArr items)
              (field "target_role" (JStr "") fields) items Hh eq_refl Hwf)
    as (v & Hv).
  exists (len items), prompt, v. rewrite <- Hs in Hp, Hv.
  split; [exact Hp | split; [exact Hv|]].
  refine (handler_reaches_upstream fields (len items) prompt upstream
            _ _ Hi Ht Hp); rewrite Hs; [reflexivity|].
  destruct items; [congruence | reflexivity].
Qed.

(** X6: for a well-formed request, when the upstream reply is a non-empty
    list whose first element is an object, the handler answers 200 and the
    learning path is that element's generated_text, or the empty string when
    the element has no such field; later elements are ignored. *)
Theorem structured_reply_gives_generated_text (fields : list (string * json))
    (upstream : http_request -> result json) (prompt : string)
    (first : list (string * json)) (rest : list json) :
  well_formed_request fields ->
  build_prompt (field "skills" (JArr []) fields)
    (field "interest" (JStr "") fields)
    (field "target_role" (JStr "") fields) = Ok prompt ->
  upstream (query_huggingface prompt) = Ok (JArr (JObj first :: rest)) ->
  exists v,
    snd (run upstream (generate_learning_path (JObj fields)))
    = Respond 200
        (JObj [ ("success", JBool true);
                ("learning_path", field "generated_text" (JStr "") first);
                ("match_percentage", JInt v);
                ("target_role", field "target_role" (JStr "") fields) ]).
Proof.
  intros Hwf Hp Hr.
  destruct (well_formed_run fields upstream Hwf) as (n & p & v & Hp' & Hv & ->).
  rewrite Hp in Hp'; inversion Hp'; subst p.
  exists v. simpl. unfold after_upstream, try_body.
  rewrite Hr; simpl. rewrite Hv; reflexivity.
Qed.

(** X7: for a well-formed request, when the upstream reply is anything but a
    non-empty list (an error object, an empty list, a string), the handler
    still answers 200 with success true, and the learning path is the reply
    rendered as text. *)
Theorem opaque_reply_is_stringified (fields : list (string * json))
    (upstream : http_request -> result json) (prompt : string)
    (hf_response : json) :
  well_formed_request fields ->
  build_prompt (field "skills" (JArr []) fields)
    (field "interest" (JStr "") fields)
    (field "target_role" (JStr "") fields) = Ok prompt ->
  upstream (query_huggingface prompt) = Ok hf_response ->
  is_nonempty_list hf_response = false ->
  exists v,
    snd (run upstream (generate_learning_path (JObj fields)))
    = Respond 200
        (JObj [ ("success", JBool true);
                ("learning_path", JStr (py_str hf_response));
                ("match_percentage", JInt v);
                ("target_role", field "target_role" (JStr "") fields) ]).
Proof.
  intros Hwf Hp Hr Hnl.
  destruct (well_formed_run fields upstream Hwf) as (n & p & v & Hp' & Hv & ->).
  rewrite Hp in Hp'; inversion Hp'; subst p.
  exists v. simpl. unfold after_upstream, try_body.
  rewrite Hr; simpl.
  assert (Hsh : shape_reply hf_response = Ok (JStr (py_str hf_response))).
  { destruct hf_response; try reflexivity.
    destruct items; [reflexivity | discriminate]. }
  rewrite Hsh; simpl. rewrite Hv; reflexivity.
Qed.

(** X8: for a well-formed request, when the upstream reply is a non-empty
    list whose first element is not an object, reading generated_text raises
    AttributeError and the handler answers 500 with its description. *)
Theorem non_object_first_element_fails (fields : list (string * json))
    (upstream : http_request -> result json) (prompt : string)
    (first : json) (rest : list json) :
  well_formed_request fields ->
  build_prompt (field "skills" (JArr []) fields)
    (field "interest" (JStr "") fields)
    (field "target_role" (JStr "") fields) = Ok prompt ->
  upstream (query_huggingface prompt) = Ok (JArr (first :: rest)) ->
  (forall f, first <> JObj f) ->
  snd (run upstream (generate_learning_path (JObj fields)))
  = Respond 500
      (JObj [ ("success", JBool false);
              ("error",
                JStr ("'" ++ type_name first ++ "' object has no attribute 'get'")) ]).
Proof.
  intros Hwf Hp Hr Hno.
  destruct (well_formed_run fields upstream Hwf) as (n & p & v & Hp' & Hv & ->).
  rewrite Hp in Hp'; inversion Hp'; subst p.
  simpl. unfold after_upstream, try_body.
  rewrite Hr; simpl.
  destruct first; try reflexivity. destruct (Hno fields0 eq_refl).
Qed.

(** X9: a request that is well-formed except that its target role is a
    non-empty list or object never gets a 200: the upstream is still called
    once, and the answer is the 500 failure; when the reply itself can be
    shaped, the error is the estimator's "unhashable type". *)
Theorem unhashable_role_always_fails (fields : list (string * json))
    (items : list json) (upstream : http_request -> result json) :
  field "skills" (JArr []) fields = JArr items -> items <> [] ->
  Forall skill_object items ->
  truthy (field "interest" (JStr "") fields) = true ->
  truthy (field "target_role" (JStr "") fields) = true ->
  hashable (field "target_role" (JStr "") fields) = false ->
  exists line prompt msg,
    run upstream (generate_learning_path (JObj fields))
    = ([Logged line; Posted (query_huggingface prompt)],
       Respond 500 (JObj [("success", JBool false); ("error", JStr msg)])) /\
    forall hf_response generated_text,
      upstream (query_huggingface prompt) = Ok hf_response ->
      shape_reply hf_response = Ok generated_text ->
      msg = "unhashable type: '"
              ++ type_name (field "target_role" (JStr "") fields) ++ "'".
Proof.
  intros Hs Hne Hwf Hi Ht Hh.
  destruct (proj2 (build_prompt_ok_iff (JArr items)
                     (field "interest" (JStr "") fields)
                     (field "target_role" (JStr "") fields))
              (ex_intro _ items (conj eq_refl Hwf))) as (prompt & Hp).
  assert (Hts : truthy (JArr items) = true)
    by (destruct items; [congruence | reflexivity]).
  assert (Hrun := handler_reaches_upstream fields (len items) prompt upstream).
  cbv zeta in Hrun. rewrite Hs in Hrun.
  rewrite (Hrun eq_refl Hts Hi Ht Hp).
  assert (Hcalc : calculate_match_percentage (JArr items)
                    (field "target_role" (JStr "") fields)
                  = Err (Raise TypeError
                           ("unhashable type: '"
                              ++ type_name (field "target_role" (JStr "") fields)
                              ++ "'"))).
  { unfold calculate_match_percentage.
    destruct (field "target_role" (JStr "") fields); try discriminate;
      reflexivity. }
  unfold after_upstream, try_body. rewrite Hcalc.
  destruct (upstream (query_huggingface prompt)) as [hf|e] eqn:Hr; simpl.
  - destruct (shape_reply hf) as [g|e] eqn:Hsh; simpl.
    + do 3 eexists; split; [reflexivity|]. intros; reflexivity.
    + do 3 eexists; split; [reflexivity|].
      intros hf' g' Hhf Hg. congruence.
  - do 3 eexists; split; [reflexivity|]. intros hf' g' Hhf; congruence.
Qed.

(** X10: every request the handler sends upstream goes to the configured
    inference URL, carries the bearer header made from the configured key
    (the text None when no key is set), and has as inputs the prompt built
    from this request. *)
Theorem upstream_request_contents (data : json)
    (upstream : http_request -> result json) (req : http_request) :
  In (Posted req) (fst (run upstream (generate_learning_path data))) ->
  http_url req
    = "https://api-inference.huggingface.co/models/google/flan-t5-large" /\
  http_headers req
    = [("Authorization",
        "Bearer " ++ match HF_API_KEY with Some key => key | None => "None" end)] /\
  exists fields prompt,
    data = JObj fields /\
    build_prompt (field "skills" (JArr []) fields)
      (field "interest" (JStr "") fields)
      (field "target_role" (JStr "") fields) = Ok prompt /\
    py_get (http_json req) "inputs" JNull = Ok (JStr prompt) /\
    py_get (http_json req) "parameters" JNull
    = Ok (JObj [ ("max_length", JInt 1000);
                 ("temperature", JFloat (S754_finite false 6305039478318694 (-53)));
                 ("top_p", JFloat (S754_finite false 8106479329266893 (-53))) ]).
Proof.
  rewrite handler_run.
  destruct data; try (intros []). cbv zeta.
  destruct (py_len _) as [n|]; [|intros []].
  destruct (negb _ || negb _ || negb _); [intros [H | []]; discriminate|].
  destruct (build_prompt _ _ _) as [prompt|] eqn:Hp;
    [|intros [H | []]; discriminate].
  intros [H | [H | []]]; [discriminate|]. inversion H; subst.
  split; [reflexivity | split; [reflexivity|]].
  exists fields, prompt. repeat split; auto.
Qed.

(** X18: the request is logged before it is validated: whenever the body is
    an object whose skills value has a length, the run starts with the log
    line naming the target role and the number of skills, also when the
    request is then rejected. *)
Theorem request_logged_before_validation (fields : list (string * json))
    (n : Z) (upstream : http_request -> result json) :
  py_len (field "skills" (JArr []) fields) = Ok n ->
  exists rest,
    fst (run upstream (generate_learning_path (JObj fields)))
    = Logged ("🚀 Generating learning path for "
                ++ py_str (field "target_role" (JStr "") fields)
                ++ " with " ++ decimal n ++ " skills") :: rest.
Proof.
  intros Hlen. rewrite handler_run; cbv zeta. rewrite Hlen.
  destruct (negb _ || negb _ || negb _); [eexists; reflexivity|].
  destruct (build_prompt _ _ _); eexists; reflexivity.
Qed.

(** X19: at the level of the function there is no condition on the keyword
    list: whenever the role's keywords and the lower-cased skill names are
    obtained, the result is floor(100 * matched / total) clamped to 10..95,
    matched being the number of the role's keywords found in some name. *)
Theorem match_percentage_closed_form (user_skills target_role : json)
    (ks names : list string) :
  keywords_for target_role = Ok ks ->
  skill_names user_skills = Ok names ->
  calculate_match_percentage user_skills target_role
  = Ok (Z.min (Z.max (100 * len (filter (matched names) ks) / len ks) 10) 95).
Proof.
  intros Hk Hn.
  destruct (keywords_for_ok _ _ Hk) as (_ & Hne & Hlen).
  unfold calculate_match_percentage; rewrite Hk, Hn; simpl.
  rewrite score_floor by (auto; lia). reflexivity.
Qed.

Lemma build_prompt_error (skills interest target_role interest' target_role' : json)
    (e : exn) :
  build_prompt skills interest target_role = Err e ->
  build_prompt skills interest' target_role' = Err e.
Proof.
  unfold build_prompt, py_join.
  destruct (py_iter skills) as [items|]; cbn [bind]; [|auto].
  destruct (mapM _ items) as [names|]; cbn [bind]; [|auto].
  destruct (str_items 0 names) as [ss|]; cbn [bind]; [discriminate | auto].
Qed.

(** X20: the interest reaches the response only through the upstream: two
    requests with the same skills and target role and non-empty interests,
    whose upstream calls get the same reply, end in the same outcome. *)
Theorem interest_only_reaches_prompt (fields1 fields2 : list (string * json))
    (upstream1 upstream2 : http_request -> result json) :
  lookup "skills" fields1 = lookup "skills" fields2 ->
  lookup "target_role" fields1 = lookup "target_role" fields2 ->
  truthy (field "interest" (JStr "") fields1) = true ->
  truthy (field "interest" (JStr "") fields2) = true ->
  (forall prompt1 prompt2,
      build_prompt (field "skills" (JArr []) fields1)
        (field "interest" (JStr "") fields1)
        (field "target_role" (JStr "") fields1) = Ok prompt1 ->
      build_prompt (field "skills" (JArr []) fields2)
        (field "interest" (JStr "") fields2)
        (field "target_role" (JStr "") fields2) = Ok prompt2 ->
      upstream1 (query_huggingface prompt1)
      = upstream2 (query_huggingface prompt2)) ->
  snd (run upstream1 (generate_learning_path (JObj fields1)))
  = snd (run upstream2 (generate_learning_path (JObj fields2))).
Proof.
  intros Hs Ht Hi1 Hi2 Hup.
  rewrite !handler_run; cbv zeta.
  assert (Hs' : field "skills" (JArr []) fields1 = field "skills" (JArr []) fields2)
    by (unfold field; rewrite Hs; reflexivity).
  assert (Ht' : field "target_role" (JStr "") fields1
                = field "target_role" (JStr "") fields2)
    by (unfold field; rewrite Ht; reflexivity).
  rewrite Hs', Ht' in Hup |- *. rewrite Hi1, Hi2.
  destruct (py_len _) as [n|]; [|reflexivity].
  destruct (truthy (field "skills" (JArr []) fields2)); [|reflexivity].
  destruct (truthy (field "target_role" (JStr "") fields2)); [|reflexivity].
  simpl.
  destruct (build_prompt _ (field "interest" (JStr "") fields1) _)
    as [p1|e1] eqn:Hp1.
  - destruct (build_prompt _ (field "interest" (JStr "") fields2) _)
      as [p2|e2] eqn:Hp2.
    + simpl. rewrite (Hup p1 p2 eq_refl eq_refl). reflexivity.
    + apply build_prompt_error
        with (interest' := field "interest" (JStr "") fields1)
             (target_role' := field "target_role" (JStr "") fields2) in Hp2.
      congruence.
  - apply build_prompt_error
      with (interest' := field "interest" (JStr "") fields2)
           (target_role' := field "target_role" (JStr "") fields2) in Hp1.
    rewrite Hp1. reflexivity.
Qed.

End Server.

(** ** The properties on the sample requests *)

Import Sample.

(** C1, as the specification words it, fails: one match out of six keywords
    is 16.67 percent; rounding gives 17, the code gives 16. *)
Lemma score_is_not_rounded :
  score backend_keywords ["python"] = Ok 16 /\
  spec_rounded_score backend_keywords ["python"] = 17 /\
  calculate_match_percentage ascii_lower (JArr [skill "Python"])
    (JStr "Backend Developer") = Ok 16.
Proof. repeat split; vm_compute; reflexivity. Qed.

Lemma score_truncates_then_clamps_witness :
  backend_keywords <> [] /\
  (List.length backend_keywords <= 49)%nat /\
  score backend_keywords ["python"] = Ok 16.
Proof.
  assert (H1 : backend_keywords <> []) by discriminate.
  assert (H2 : (List.length backend_keywords <= 49)%nat) by (simpl; lia).
  split; [exact H1 | split; [exact H2|]].
  exact (score_truncates_then_clamps backend_keywords ["python"] H1 H2).
Defined.

Lemma designer_skills_well_formed : Forall skill_object designer_skills.
Proof. repeat constructor; do 2 eexists; split; reflexivity. Defined.

Lemma match_percentage_in_band_witness :
  Forall skill_object designer_skills /\
  exists v,
    calculate_match_percentage ascii_lower (JArr designer_skills)
      (JStr "Data Scientist") = Ok v
    /\ 10 <= v <= 95.
Proof.
  split; [exact designer_skills_well_formed|].
  exact (match_percentage_in_band ascii_lower designer_skills "Data Scientist"
           designer_skills_well_formed).
Defined.

(** C3: on the request with skills null and an empty interest, both of which
    the test [not skills or not interest] of the validation would reject, the
    handler does not answer 400: the log line evaluates [len(skills)] first
    and its TypeError leaves the handler. *)
Lemma null_skills_escape_validation :
  empty_or_absent "skills" null_skills /\
  empty_or_absent "interest" null_skills /\
  generate_learning_path ascii_lower plain_repr None (JObj null_skills)
  = Done (Unhandled (Raise TypeError "object of type 'NoneType' has no len()")).
Proof. repeat split; reflexivity. Qed.

Lemma missing_input_rejected_witness :
  py_len (field "skills" (JArr []) no_skills) = Ok 0 /\
  empty_or_absent "skills" no_skills /\
  let r := run replies_text
             (generate_learning_path ascii_lower plain_repr None (JObj no_skills)) in
  snd r = Respond 400 (JObj [("error", JStr "Missing required data")]) /\
  upstream_calls (fst r) = [].
Proof.
  assert (H1 : py_len (field "skills" (JArr []) no_skills) = Ok 0) by reflexivity.
  assert (H2 : empty_or_absent "skills" no_skills) by exact I.
  split; [exact H1 | split; [exact H2|]].
  exact (missing_input_rejected ascii_lower plain_repr None no_skills 0
           replies_text H1 (or_introl H2)).
Defined.

(** C4, as stated, fails: an upstream exception with an empty description
    gives a 500 response whose error string is empty. *)
Lemma bare_exception_gives_empty_error :
  snd (run raises_bare
         (generate_learning_path ascii_lower plain_repr None (JObj designer)))
  = Respond 500 (JObj [("success", JBool false); ("error", JStr "")]).
Proof. vm_compute; reflexivity. Qed.

Lemma upstream_failure_shape_witness :
  exists prompt,
    build_prompt plain_repr (JArr designer_skills) (JStr "design")
      (JStr "UI/UX Designer") = Ok prompt /\
    try_body ascii_lower plain_repr (JArr designer_skills) (JStr "UI/UX Designer")
      (refuses (query_huggingface None prompt)) = Err connection_refused /\
    snd (run refuses
           (generate_learning_path ascii_lower plain_repr None (JObj designer)))
    = Respond 500
        (JObj [("success", JBool false); ("error", JStr "Connection refused")]).
Proof.
  eexists. split; [vm_compute; reflexivity|]. split; [reflexivity|].
  refine (proj1 (upstream_failure_shape ascii_lower plain_repr None designer 2 _
                   refuses connection_refused _ _ _ _ _ _));
    reflexivity.
Defined.

Lemma keyword_matched_iff_substring_witness :
  skill_names ascii_lower (JArr designer_skills) = Ok ["figma"; "user research"] /\
  (In "figma"
      (matching_keywords ["figma"; "design"; "user research"; "prototyping"]
         ["figma"; "user research"]) <->
   In "figma" ["figma"; "design"; "user research"; "prototyping"] /\
   exists s name, In s designer_skills /\ py_getitem s "name" = Ok (JStr name)
                  /\ is_substring "figma" (str_lower ascii_lower name)).
Proof.
  assert (H : skill_names ascii_lower (JArr designer_skills)
              = Ok ["figma"; "user research"]) by reflexivity.
  split; [exact H|].
  exact (keyword_matched_iff_substring ascii_lower designer_skills
           ["figma"; "user research"]
           ["figma"; "design"; "user research"; "prototyping"] "figma" H).
Defined.

Lemma data_scientist_unrecognized :
  ~ In "Data Scientist" (map fst relevant_keywords).
Proof. simpl; intros [H | [H | [H | [H | []]]]]; discriminate. Defined.

Lemma unrecognized_role_uses_fallback_witness :
  ~ In "Data Scientist" (map fst relevant_keywords) /\
  keywords_for (JStr "Data Scientist") = Ok ["git"; "api"] /\
  calculate_match_percentage ascii_lower (JArr [skill "Git"; skill "Docker"])
    (JStr "Data Scientist") = Ok 50.
Proof.
  split; [exact data_scientist_unrecognized|].
  destruct (unrecognized_role_uses_fallback ascii_lower "Data Scientist"
              data_scientist_unrecognized) as [Hks Hscore].
  split; [exact Hks|].
  apply (Hscore (JArr [skill "Git"; skill "Docker"]) ["git"; "docker"]).
  - reflexivity.
  - exists "git"; split; [left; reflexivity|].
    exists "", ""; reflexivity.
  - intros us [<- | [<- | []]] Hsub; apply contains_spec in Hsub; discriminate.
Defined.

Lemma match_percentage_deterministic_witness :
  lookup "skills" designer = lookup "skills" designer_again /\
  lookup "target_role" designer = lookup "target_role" designer_again /\
  match_percentage_of
    (snd (run replies_text
            (generate_learning_path ascii_lower plain_repr None (JObj designer))))
    = Some (JInt 50) /\
  match_percentage_of
    (snd (run replies_loading
            (generate_learning_path ascii_lower plain_repr None
               (JObj designer_again))))
    = Some (JInt 50) /\
  JInt 50 = JInt 50.
Proof.
  assert (H1 : match_percentage_of
                 (snd (run replies_text
                         (generate_learning_path ascii_lower plain_repr None
                            (JObj designer)))) = Some (JInt 50))
    by (vm_compute; reflexivity).
  assert (H2 : match_percentage_of
                 (snd (run replies_loading
                         (generate_learning_path ascii_lower plain_repr None
                            (JObj designer_again)))) = Some (JInt 50))
    by (vm_compute; reflexivity).
  split; [reflexivity | split; [reflexivity | split; [exact H1 | split; [exact H2|]]]].
  exact (match_percentage_deterministic ascii_lower plain_repr None
           designer designer_again replies_text replies_loading
           (JInt 50) (JInt 50) eq_refl eq_refl H1 H2).
Defined.

Lemma nameless_skill_escapes_witness :
  lookup "skills" nameless_skill = Some (JArr [skill "Python"; nameless]) /\
  In nameless [skill "Python"; nameless] /\
  lacks_name nameless /\
  exists e,
    (exn_class_of e = KeyError \/ exn_class_of e = TypeError) /\
    forall upstream,
      run upstream
        (generate_learning_path ascii_lower plain_repr None (JObj nameless_skill))
      = ([Logged (log_line plain_repr (JStr "AI Engineer") 2)], Unhandled e).
Proof.
  assert (H1 : In nameless [skill "Python"; nameless]) by (right; left; reflexivity).
  assert (H2 : lacks_name nameless) by (eexists; split; reflexivity).
  split; [reflexivity | split; [exact H1 | split; [exact H2|]]].
  exact (nameless_skill_escapes ascii_lower plain_repr None nameless_skill
           [skill "Python"; nameless] nameless eq_refl eq_refl eq_refl H1 H2).
Defined.

(** The exception of that run is the KeyError of the missing key. *)
Lemma nameless_skill_raises_key_error :
  run replies_text
    (generate_learning_path ascii_lower plain_repr None (JObj nameless_skill))
  = ([Logged "🚀 Generating learning path for AI Engineer with 2 skills"],
     Unhandled (Raise KeyError "'name'")).
Proof. vm_compute; reflexivity. Qed.

(** ** Further properties on the sample requests *)

Lemma designer_well_formed : well_formed_request designer.
Proof.
  exists designer_skills.
  split; [reflexivity | split; [discriminate|]].
  split; [exact designer_skills_well_formed|].
  repeat split; reflexivity.
Defined.

Lemma non_object_body_escapes_witness :
  (forall fields, JArr [] <> JObj fields) /\
  run replies_text (generate_learning_path ascii_lower plain_repr None (JArr []))
  = ([], Unhandled (Raise AttributeError "'list' object has no attribute 'get'")).
Proof.
  assert (H : forall fields, JArr [] <> JObj fields) by discriminate.
  split; [exact H|].
  exact (non_object_body_escapes ascii_lower plain_repr None (JArr [])
           replies_text H).
Defined.

Lemma response_200_shape_witness :
  snd (run replies_text
         (generate_learning_path ascii_lower plain_repr None (JObj designer)))
  = Respond 200
      (JObj [ ("success", JBool true);
              ("learning_path", JStr "1. Learn prototyping");
              ("match_percentage", JInt 50);
              ("target_role", JStr "UI/UX Designer") ]) /\
  exists fields generated_text v,
    JObj designer = JObj fields /\
    JObj [ ("success", JBool true);
           ("learning_path", JStr "1. Learn prototyping");
           ("match_percentage", JInt 50);
           ("target_role", JStr "UI/UX Designer") ]
    = JObj [ ("success", JBool true);
             ("learning_path", generated_text);
             ("match_percentage", JInt v);
             ("target_role", field "target_role" (JStr "") fields) ] /\
    calculate_match_percentage ascii_lower (field "skills" (JArr []) fields)
      (field "target_role" (JStr "") fields) = Ok v /\
    10 <= v <= 95.
Proof.
  assert (H : snd (run replies_text
                     (generate_learning_path ascii_lower plain_repr None
                        (JObj designer)))
              = Respond 200
                  (JObj [ ("success", JBool true);
                          ("learning_path", JStr "1. Learn prototyping");
                          ("match_percentage", JInt 50);
                          ("target_role", JStr "UI/UX Designer") ]))
    by (vm_compute; reflexivity).
  split; [exact H|].
  exact (response_200_shape ascii_lower plain_repr None (JObj designer)
           replies_text _ H).
Defined.

Lemma response_400_only_when_missing_witness :
  snd (run replies_text
         (generate_learning_path ascii_lower plain_repr None (JObj no_skills)))
  = Respond 400 (JObj [("error", JStr "Missing required data")]) /\
  exists fields,
    JObj no_skills = JObj fields /\
    (truthy (field "skills" (JArr []) fields) = false \/
     truthy (field "interest" (JStr "") fields) = false \/
     truthy (field "target_role" (JStr "") fields) = false).
Proof.
  assert (H : snd (run replies_text
                     (generate_learning_path ascii_lower plain_repr None
                        (JObj no_skills)))
              = Respond 400 (JObj [("error", JStr "Missing required data")]))
    by reflexivity.
  split; [exact H|].
  exact (proj2 (response_400_only_when_missing ascii_lower plain_repr None
                  (JObj no_skills) replies_text _ H)).
Defined.

Lemma structured_reply_gives_generated_text_witness :
  exists prompt,
    build_prompt plain_repr (JArr designer_skills) (JStr "design")
      (JStr "UI/UX Designer") = Ok prompt /\
    exists v,
      snd (run replies_text
             (generate_learning_path ascii_lower plain_repr None (JObj designer)))
      = Respond 200
          (JObj [ ("success", JBool true);
                  ("learning_path", JStr "1. Learn prototyping");
                  ("match_percentage", JInt v);
                  ("target_role", JStr "UI/UX Designer") ]).
Proof.
  eexists. split; [vm_compute; reflexivity|].
  refine (structured_reply_gives_generated_text ascii_lower plain_repr None
            designer replies_text _
            [("generated_text", JStr "1. Learn prototyping")] []
            designer_well_formed _ _); reflexivity.
Defined.

Lemma opaque_reply_is_stringified_witness :
  exists prompt,
    build_prompt plain_repr (JArr designer_skills) (JStr "design")
      (JStr "UI/UX Designer") = Ok prompt /\
    exists v,
      snd (run replies_loading
             (generate_learning_path ascii_lower plain_repr None (JObj designer)))
      = Respond 200
          (JObj [ ("success", JBool true);
                  ("learning_path",
                    JStr "{'error': 'Model is currently loading'}");
                  ("match_percentage", JInt v);
                  ("target_role", JStr "UI/UX Designer") ]).
Proof.
  eexists. split; [vm_compute; reflexivity|].
  refine (opaque_reply_is_stringified ascii_lower plain_repr None
            designer replies_loading _
            (JObj [("error", JStr "Model is currently loading")])
            designer_well_formed _ _ _); reflexivity.
Defined.

Lemma non_object_first_element_fails_witness :
  exists prompt,
    build_prompt plain_repr (JArr designer_skills) (JStr "design")
      (JStr "UI/UX Designer") = Ok prompt /\
    snd (run replies_strings
           (generate_learning_path ascii_lower plain_repr None (JObj designer)))
    = Respond 500
        (JObj [ ("success", JBool false);
                ("error", JStr "'str' object has no attribute 'get'") ]).
Proof.
  eexists. split; [vm_compute; reflexivity|].
  refine (non_object_first_element_fails ascii_lower plain_repr None
            designer replies_strings _ (JStr "Learn SQL") []
            designer_well_formed _ _ _);
    [reflexivity | reflexivity | discriminate].
Defined.

Lemma unhashable_role_always_fails_witness :
  field "skills" (JArr []) list_role = JArr designer_skills /\
  hashable (field "target_role" (JStr "") list_role) = false /\
  exists line prompt msg,
    run replies_text
      (generate_learning_path ascii_lower plain_repr None (JObj list_role))
    = ([Logged line; Posted (query_huggingface None prompt)],
       Respond 500 (JObj [("success", JBool false); ("error", JStr msg)])) /\
    forall hf_response generated_text,
      replies_text (query_huggingface None prompt) = Ok hf_response ->
      shape_reply plain_repr hf_response = Ok generated_text ->
      msg = "unhashable type: 'list'".
Proof.
  split; [reflexivity | split; [reflexivity|]].
  refine (unhashable_role_always_fails ascii_lower plain_repr None list_role
            designer_skills replies_text eq_refl _ designer_skills_well_formed
            eq_refl eq_refl eq_refl).
  discriminate.
Defined.

Lemma upstream_request_contents_witness :
  exists req,
    In (Posted req)
       (fst (run replies_text
               (generate_learning_path ascii_lower plain_repr None
                  (JObj designer)))) /\
    http_url req
      = "https://api-inference.huggingface.co/models/google/flan-t5-large" /\
    http_headers req = [("Authorization", "Bearer None")].
Proof.
  eexists. 
  assert (H : In (Posted (query_huggingface None
                    match build_prompt plain_repr (JArr designer_skills)
                            (JStr "design") (JStr "UI/UX Designer") with
                    | Ok p => p
                    | Err _ => ""
                    end))
                 (fst (run replies_text
                         (generate_learning_path ascii_lower plain_repr None
                            (JObj designer)))))
    by (right; left; reflexivity).
  split; [exact H|].
  destruct (upstream_request_contents ascii_lower plain_repr None
              (JObj designer) replies_text _ H) as (Hu & Hh & _).
  split; [exact Hu | exact Hh].
Defined.

Lemma prompt_mentions_request_witness :
  exists prompt,
    build_prompt plain_repr (JArr designer_skills) (JStr "design")
      (JStr "UI/UX Designer") = Ok prompt /\
    is_substring "design" prompt /\
    is_substring "UI/UX Designer" prompt /\
    is_substring "User Research" prompt.
Proof.
  eexists.
  assert (H : build_prompt plain_repr (JArr designer_skills) (JStr "design")
                (JStr "UI/UX Designer")
              = Ok match build_prompt plain_repr (JArr designer_skills)
                           (JStr "design") (JStr "UI/UX Designer") with
                   | Ok p => p
                   | Err _ => ""
                   end)
    by (vm_compute; reflexivity).
  split; [exact H|].
  destruct (prompt_mentions_request plain_repr _ _ _ _ H) as (Hi & Ht & Hs).
  split; [exact Hi | split; [exact Ht|]].
  apply (Hs designer_skills (skill "User Research") "User Research");
    [reflexivity | right; left; reflexivity | reflexivity].
Defined.

Lemma estimator_error_classes_witness :
  calculate_match_percentage ascii_lower (JArr [skill "Python"; nameless])
    (JStr "AI Engineer") = Err (Raise KeyError "'name'") /\
  (KeyError = KeyError \/ KeyError = TypeError \/ KeyError = AttributeError).
Proof.
  assert (H : calculate_match_percentage ascii_lower
                (JArr [skill "Python"; nameless]) (JStr "AI Engineer")
              = Err (Raise KeyError "'name'")) by reflexivity.
  split; [exact H|].
  exact (estimator_error_classes ascii_lower _ _ _ H).
Defined.

Lemma figma_in_designer_skills : incl [skill "Figma"] designer_skills.
Proof. intros s [<- | []]; left; reflexivity. Defined.

Lemma more_skills_never_lower_witness :
  Forall skill_object designer_skills /\
  incl [skill "Figma"] designer_skills /\
  exists v v',
    calculate_match_percentage ascii_lower (JArr [skill "Figma"])
      (JStr "UI/UX Designer") = Ok v /\
    calculate_match_percentage ascii_lower (JArr designer_skills)
      (JStr "UI/UX Designer") = Ok v' /\
    v <= v'.
Proof.
  split; [exact designer_skills_well_formed|].
  split; [exact figma_in_designer_skills|].
  exact (more_skills_never_lower ascii_lower "UI/UX Designer" [skill "Figma"]
           designer_skills designer_skills_well_formed figma_in_designer_skills).
Defined.

Lemma skills_order_irrelevant_witness :
  Forall skill_object designer_skills /\
  calculate_match_percentage ascii_lower (JArr designer_skills)
    (JStr "UI/UX Designer")
  = calculate_match_percentage ascii_lower
      (JArr [skill "User Research"; skill "Figma"; skill "Figma"])
      (JStr "UI/UX Designer").
Proof.
  split; [exact designer_skills_well_formed|].
  apply (skills_order_irrelevant ascii_lower (JStr "UI/UX Designer")
           designer_skills [skill "User Research"; skill "Figma"; skill "Figma"]
           designer_skills_well_formed).
  - intros s [<- | [<- | []]]; simpl; auto.
  - intros s [<- | [<- | [<- | []]]]; simpl; auto.
Defined.

Lemma score_extremes_witness :
  calculate_match_percentage ascii_lower (JArr cook_skills)
    (JStr "UI/UX Designer") = Ok 10 /\
  calculate_match_percentage ascii_lower (JArr full_designer_skills)
    (JStr "UI/UX Designer") = Ok 95.
Proof.
  split.
  - apply (proj1 (score_extremes ascii_lower (JArr cook_skills)
                    (JStr "UI/UX Designer")
                    ["figma"; "design"; "user research"; "prototyping"]
                    ["cooking"] eq_refl eq_refl)).
    intros k us Hk [<- | []] Hsub. apply contains_spec in Hsub.
    destruct Hk as [<- | [<- | [<- | [<- | []]]]]; discriminate.
  - apply (proj2 (score_extremes ascii_lower (JArr full_designer_skills)
                    (JStr "UI/UX Designer")
                    ["figma"; "design"; "user research"; "prototyping"]
                    ["figma design"; "user research"; "prototyping"]
                    eq_refl eq_refl)).
    intros k [<- | [<- | [<- | [<- | []]]]].
    + exists "figma design"; split; [simpl; auto | apply contains_spec; reflexivity].
    + exists "figma design"; split; [simpl; auto | apply contains_spec; reflexivity].
    + exists "user research"; split; [simpl; auto | apply contains_spec; reflexivity].
    + exists "prototyping"; split; [simpl; auto | apply contains_spec; reflexivity].
Defined.

Lemma letter_case_irrelevant_witness :
  Forall2 same_name_up_to_case [skill "FIGMA"] [skill "Figma"] /\
  calculate_match_percentage ascii_lower (JArr [skill "FIGMA"])
    (JStr "UI/UX Designer")
  = calculate_match_percentage ascii_lower (JArr [skill "Figma"])
      (JStr "UI/UX Designer").
Proof.
  assert (H : Forall2 same_name_up_to_case [skill "FIGMA"] [skill "Figma"]).
  { repeat constructor. do 4 eexists. repeat split; reflexivity. }
  split; [exact H|].
  exact (letter_case_irrelevant ascii_lower (JStr "UI/UX Designer") _ _ H).
Defined.

Lemma request_logged_before_validation_witness :
  py_len (field "skills" (JArr []) no_skills) = Ok 0 /\
  exists rest,
    fst (run replies_text
           (generate_learning_path ascii_lower plain_repr None (JObj no_skills)))
    = Logged "🚀 Generating learning path for AI Engineer with 0 skills" :: rest.
Proof.
  split; [reflexivity|].
  exact (request_logged_before_validation ascii_lower plain_repr None
           no_skills 0 replies_text eq_refl).
Defined.

Lemma match_percentage_closed_form_witness :
  keywords_for (JStr "Backend Developer") = Ok backend_keywords /\
  skill_names ascii_lower (JArr [skill "Python"; skill "PostgreSQL"])
    = Ok ["python"; "postgresql"] /\
  calculate_match_percentage ascii_lower
    (JArr [skill "Python"; skill "PostgreSQL"]) (JStr "Backend Developer")
  = Ok 33.
Proof.
  split; [reflexivity | split; [reflexivity|]].
  exact (match_percentage_closed_form ascii_lower
           (JArr [skill "Python"; skill "PostgreSQL"])
           (JStr "Backend Developer") backend_keywords
           ["python"; "postgresql"] eq_refl eq_refl).
Defined.

Lemma interest_only_reaches_prompt_witness :
  lookup "skills" designer = lookup "skills" designer_again /\
  lookup "target_role" designer = lookup "target_role" designer_again /\
  snd (run replies_text
         (generate_learning_path ascii_lower plain_repr None (JObj designer)))
  = snd (run replies_text
           (generate_learning_path ascii_lower plain_repr None
              (JObj designer_again))).
Proof.
  split; [reflexivity | split; [reflexivity|]].
  exact (interest_only_reaches_prompt ascii_lower plain_repr None
           designer designer_again replies_text replies_text
           eq_refl eq_refl eq_refl eq_refl (fun _ _ _ _ => eq_refl)).
Defined.
